(** * conf.json test-playbook reconciliation of demisto-sdk

    A shallow embedding of

    - [TestSuite/conf_json.py]: the fixture writer [ConfJSON.write_json];
    - [demisto_sdk/commands/format/update_generic_yml.py]: the methods
      [BaseUpdateYML.update_conf_json], [remove_from_conf_json],
      [get_test_playbooks_configuration], [_load_conf_file] and
      [_save_to_conf_json]; further on [update_tests], [update_deprecate],
      [copy_tests_from_old_file] and [remove_nativeimage_tag_if_exist];
    - [tests_end_to_end/e2e_tests_utils.py]: [cli] and [connect_to_server];
    - [demisto_sdk/common/rest_api.py]: the methods of [Client].

    Python values that travel through [json.load]/[json.dump] are embedded
    as a JSON tree whose objects are association lists (a Python dict keeps
    its insertion order and [json.dump] writes in that order).  The methods
    read and write one file and may raise, so they live in a small monad
    over a world that holds the file, the user's answers and the trace of
    what happened. *)

From Stdlib Require Import String Ascii List Bool Arith ZArith Lia.
Import ListNotations.
Local Open Scope string_scope.
Local Open Scope list_scope.

(** ** JSON documents *)

#[warnings="-register-all"]
Inductive json : Type :=
| JNull
| JBool (b : bool)
| JNum (n : Z)
| JStr (s : string)
| JList (items : list json)
| JDict (fields : list (string * json)).

(** ** Python strings: [str.lower] and the [in] operator *)

(** [str.lower] on the bytes of a UTF-8 string: only [A]..[Z] change.  No
    other code point lowers to a letter of the needle ["no test"], so on
    the containment tests below this agrees with Python's Unicode-aware
    [lower]. *)
Definition lower_ascii (c : ascii) : ascii :=
  let n := nat_of_ascii c in
  if ((65 <=? n) && (n <=? 90))%nat then ascii_of_nat (n + 32) else c.

Fixpoint lower (s : string) : string :=
  match s with
  | EmptyString => EmptyString
  | String c rest => String (lower_ascii c) (lower rest)
  end.

(** [needle in hay] for two strings. *)
Fixpoint str_in (needle hay : string) : bool :=
  prefix needle hay
  || match hay with
     | EmptyString => false
     | String _ rest => str_in needle rest
     end.

(** Truth value of a Python string: non-empty. *)
Definition truthy (s : string) : bool :=
  match s with EmptyString => false | String _ _ => true end.

(** [any(gen)] over a generator of strings. *)
Definition any (gen : list string) : bool := existsb truthy gen.

(** [x in xs] for a list of strings. *)
Definition mem (x : string) (xs : list string) : bool :=
  existsb (String.eqb x) xs.

(** The line feed of ["\n".join(...)] and of the prompt. *)
Definition LF : string := String (ascii_of_nat 10) EmptyString.

(** ** Python dicts as ordered association lists *)

Definition dict := list (string * json).

Fixpoint assoc_get (k : string) (d : dict) : option json :=
  match d with
  | [] => None
  | (k', v) :: rest => if k' =? k then Some v else assoc_get k rest
  end.

(** [d[k] = v]: an existing key keeps its place, a new one goes last. *)
Fixpoint assoc_set (k : string) (v : json) (d : dict) : dict :=
  match d with
  | [] => [(k, v)]
  | (k', v') :: rest =>
      if k' =? k then (k', v) :: rest else (k', v') :: assoc_set k v rest
  end.

Definition keys (d : dict) : list string := map fst d.

(** ** Exceptions *)

Inductive exn : Type :=
| FileNotFoundError
| KeyError (key : string)
| TypeError
| AttributeError.

Inductive result (A : Type) : Type :=
| Ok (a : A)
| Err (e : exn).
Arguments Ok {A} a.
Arguments Err {A} e.

(** [o[k]] *)
Definition getitem (o : json) (k : string) : result json :=
  match o with
  | JDict d =>
      match assoc_get k d with
      | Some v => Ok v
      | None => Err (KeyError k)
      end
  | _ => Err TypeError
  end.

(** [o[k] = v] *)
Definition setitem (o : json) (k : string) (v : json) : result json :=
  match o with
  | JDict d => Ok (JDict (assoc_set k v d))
  | _ => Err TypeError
  end.

(** [o.get(k)] on a value that is expected to be an object. *)
Definition dict_get (o : json) (k : string) : option json :=
  match o with
  | JDict d => assoc_get k d
  | _ => None
  end.

(** ** TestSuite/conf_json.py *)

(** [ConfJSON.write_json]: the document handed to [json.dumps] and written
    to the fixture's file.  An argument left at its default is [None]. *)
Definition write_json
    (tests skipped_tests skipped_integrations unmockable_integrations
       docker_thresholds : option json) : json :=
  let tests :=
    match tests with None => JList [] | Some v => v end in
  let skipped_tests :=
    match skipped_tests with None => JNull | Some v => v end in
  let skipped_integrations :=
    match skipped_integrations with None => JList [] | Some v => v end in
  let unmockable_integrations :=
    match unmockable_integrations with None => JList [] | Some v => v end in
  let docker_thresholds :=
    match docker_thresholds with None => JDict [] | Some v => v end in
  JDict
    [ ("tests", tests);
      ("skipped_tests", skipped_tests);
      ("skipped_integrations", skipped_integrations);
      ("unmockable_integrations", unmockable_integrations);
      ("docker_thresholds", docker_thresholds) ].

(** ** update_generic_yml.py: pure parts *)

(** [BaseUpdateYML.get_test_playbooks_configuration] *)
Definition get_test_playbooks_configuration
    (test_playbooks : list string) (content_item_id file_type : string)
  : list json :=
  if file_type =? "integration" then
    map (fun test_playbook_id =>
           JDict [ ("integrations", JStr content_item_id);
                   ("playbookID", JStr test_playbook_id) ])
        test_playbooks
  else if mem file_type ["playbook"; "script"] then
    map (fun test_playbook_id => JDict [ ("playbookID", JStr test_playbook_id) ])
        test_playbooks
  else [].

(** [conf_json_content["tests"].extend(new_entries)]: the list under
    ["tests"] grows in place, the object keeps its keys and their order. *)
Definition extend_tests (conf_json_content : json) (new_entries : list json)
  : result json :=
  match getitem conf_json_content "tests" with
  | Err e => Err e
  | Ok (JList entries) =>
      setitem conf_json_content "tests" (JList (entries ++ new_entries))
  | Ok _ => Err AttributeError
  end.

(** Lines 342-346 of [update_conf_json], the spec's [registerTests]. *)
Definition registerTests
    (conf_json_content : json) (not_registered_tests : list string)
    (content_item_id file_type : string) : result json :=
  extend_tests conf_json_content
    (get_test_playbooks_configuration
       not_registered_tests content_item_id file_type).

(** The condition computed at lines 312-314 of [update_conf_json]. *)
Definition update_no_test_playbooks_explicitly (test_playbooks : list string)
  : bool :=
  any (filter (fun test => str_in "no test" (lower test)) test_playbooks).

(** The condition computed at lines 280-284 of [remove_from_conf_json]. *)
Definition remove_no_test_playbooks_explicitly
    (related_test_playbook : list string) : bool :=
  any (filter (fun test => str_in "no test" (lower test)
                           || str_in "no tests" (lower test))
              related_test_playbook).

(** The prompt of [click.confirm] at lines 336-340. *)
Definition confirm_prompt (not_registered_tests_string : string) : string :=
  "The following test playbooks are not configured in conf.json file "
  ++ not_registered_tests_string ++ LF
  ++ "Would you like to add them now?".

(** ** Helpers of demisto_sdk/commands/common/tools.py *)

(** A "no tests" sentinel, in the spec's words: a case-insensitive
    substring match for "no test" or "no tests". *)
Definition is_sentinel (id : string) : bool :=
  str_in "no test" (lower id) || str_in "no tests" (lower id).

Definition is_str (x : string) (j : json) : bool :=
  match j with JStr s => s =? x | _ => false end.

Definition entry_playbook_is (entry : json) (id : string) : bool :=
  match dict_get entry "playbookID" with
  | Some j => is_str id j
  | None => false
  end.

(** The spec's tagged reading of [integrations]: a single value contains
    exactly itself, a sequence contains its members. *)
Definition integrations_contain (entry : json) (content_item_id : string)
  : bool :=
  match dict_get entry "integrations" with
  | Some (JList ids) => existsb (is_str content_item_id) ids
  | Some j => is_str content_item_id j
  | None => false
  end.

(** Whether [entry] links the playbook [id] to the content item. *)
Definition entry_links (content_item_id kind id : string) (entry : json)
  : bool :=
  if kind =? "integration" then
    entry_playbook_is entry id && integrations_contain entry content_item_id
  else if mem kind ["script"; "playbook"] then
    entry_playbook_is entry id
  else false.

(** Modelled from the spec: [get_not_registered_tests] is defined in
    demisto_sdk/commands/common/tools.py, which is not among the sources.
    Spec 4.1 [findUnregistered]: for each declared id that is not a
    sentinel, a match is an entry with that [playbookID] and, for an
    integration, an [integrations] field containing the item's id; the
    declared ids with no match are returned in declared order.  The spec
    gives a match rule for the kinds integration, script and playbook only;
    under any other kind no entry matches. *)
Definition findUnregistered
    (entries : list json) (content_item_id kind : string)
    (declaredTests : list string) : list string :=
  filter (fun id =>
            negb (is_sentinel id)
            && negb (existsb (entry_links content_item_id kind id) entries))
         declaredTests.

(** Modelled from the spec: the call [get_not_registered_tests(...)] on the
    value found under ["tests"].  A value that is not a sequence is the
    spec's "wrong types" (section 7): a data-format error. *)
Definition get_not_registered_tests
    (conf_json_tests : json) (content_item_id file_type : string)
    (test_playbooks : list string) : result (list string) :=
  match conf_json_tests with
  | JList entries =>
      Ok (findUnregistered entries content_item_id file_type test_playbooks)
  | _ => Err TypeError
  end.

Definition dict_put (o : json) (k : string) (v : json) : json :=
  match o with JDict d => JDict (assoc_set k v d) | _ => o end.

(** What [deregisterTests] does to one entry: [None] removes it. *)
Definition deregister_entry
    (content_item_id kind : string) (declaredTests : list string)
    (entry : json) : option json :=
  if kind =? "integration" then
    match dict_get entry "integrations" with
    | Some (JList ids) =>
        if existsb (is_str content_item_id) ids then
          match filter (fun j => negb (is_str content_item_id j)) ids with
          | [] => None
          | others => Some (dict_put entry "integrations" (JList others))
          end
        else Some entry
    | Some j => if is_str content_item_id j then None else Some entry
    | None => Some entry
    end
  else if mem kind ["script"; "playbook"] then
    match dict_get entry "playbookID" with
    | Some (JStr id) => if mem id declaredTests then None else Some entry
    | _ => Some entry
    end
  else Some entry.

(** Modelled from the spec: [search_and_delete_from_conf] is defined in
    demisto_sdk/commands/common/tools.py, which is not among the sources.
    Spec 4.1 [deregisterTests]: a no-op when [explicitNoTests]; otherwise an
    integration is taken out of every entry that names it (the entry goes
    when nothing else is named), and a script or playbook loses the entries
    whose [playbookID] is among its declared tests.  The remaining entries
    keep their order. *)
Definition deregisterTests
    (entries : list json) (content_item_id kind : string)
    (declaredTests : list string) (explicitNoTests : bool) : list json :=
  if explicitNoTests then entries
  else
    flat_map
      (fun entry =>
         match deregister_entry content_item_id kind declaredTests entry with
         | Some kept => [kept]
         | None => []
         end)
      entries.

(** Modelled from the spec: the call [search_and_delete_from_conf(...)] on
    the value found under ["tests"]; nothing is inspected when
    [no_test_playbooks_explicitly], and otherwise a value that is not a
    sequence is a data-format error. *)
Definition search_and_delete_from_conf
    (conf_json_tests : json) (content_item_id file_type : string)
    (test_playbooks : list string) (no_test_playbooks_explicitly : bool)
  : result json :=
  if no_test_playbooks_explicitly then Ok conf_json_tests
  else
    match conf_json_tests with
    | JList entries =>
        Ok (JList (deregisterTests entries content_item_id file_type
                     test_playbooks false))
    | _ => Err TypeError
    end.

(** ** The world of a format run *)

Inductive level : Type := DEBUG | INFO.

Inductive event : Type :=
| Loaded (doc : json)
| Logged (lvl : level) (msg : string)
| Asked (prompt : string) (answer : bool)
| Written (doc : json).

(** [conf_file] is what is stored at [CONF_PATH] ([None]: no such file),
    [answers] is what the user replies to a [click.confirm] prompt. *)
Record world : Type := {
  conf_file : option json;
  answers : string -> bool;
  trace : list event
}.

Definition record (ev : event) (w : world) : world :=
  {| conf_file := conf_file w;
     answers := answers w;
     trace := trace w ++ [ev] |}.

(** A method body: it returns or raises, and leaves a world behind. *)
Definition M (A : Type) : Type := world -> result A * world.

Definition ret {A : Type} (a : A) : M A := fun w => (Ok a, w).

Definition raise {A : Type} (e : exn) : M A := fun w => (Err e, w).

Definition bind {A B : Type} (m : M A) (k : A -> M B) : M B :=
  fun w =>
    match m w with
    | (Ok a, w') => k a w'
    | (Err e, w') => (Err e, w')
    end.

Definition lift {A : Type} (r : result A) : M A :=
  match r with Ok a => ret a | Err e => raise e end.

(** [try: body / except FileNotFoundError: handler] *)
Definition try_except_FileNotFoundError {A : Type} (body handler : M A)
  : M A :=
  fun w =>
    match body w with
    | (Err FileNotFoundError, w') => handler w'
    | other => other
    end.

Declare Scope py_scope.
Delimit Scope py_scope with py.
Notation "x <- m ;; k" := (bind m (fun x => k))
  (at level 61, m at next level, right associativity) : py_scope.
Notation "m ;; k" := (bind m (fun _ => k))
  (at level 61, right associativity) : py_scope.
Local Open Scope py_scope.

Definition logger_debug (msg : string) : M unit :=
  fun w => (Ok tt, record (Logged DEBUG msg) w).

Definition logger_info (msg : string) : M unit :=
  fun w => (Ok tt, record (Logged INFO msg) w).

(** [click.confirm(prompt)]: the caller-supplied yes/no answer. *)
Definition click_confirm (prompt : string) : M bool :=
  fun w => let answer := answers w prompt in
           (Ok answer, record (Asked prompt answer) w).

(** Modelled from the spec: [get_file] is defined in
    demisto_sdk/commands/common/tools.py, which is not among the sources.
    With [raise_on_error=True] it parses the whole document, and an absent
    file raises [FileNotFoundError] (spec sections 6 and 7). *)
Definition get_file : M json :=
  fun w =>
    match conf_file w with
    | Some doc => (Ok doc, record (Loaded doc) w)
    | None => (Err FileNotFoundError, w)
    end.

(** [BaseUpdateYML._load_conf_file] *)
Definition _load_conf_file : M json := get_file.

(** [BaseUpdateYML._save_to_conf_json]: the file is overwritten in full. *)
Definition _save_to_conf_json (conf_json_content : json) : M unit :=
  fun w =>
    (Ok tt,
     {| conf_file := Some conf_json_content;
        answers := answers w;
        trace := trace w ++ [Written conf_json_content] |}).

(** The documents written during a run, oldest first. *)
Fixpoint writes (t : list event) : list json :=
  match t with
  | [] => []
  | Written doc :: rest => doc :: writes rest
  | _ :: rest => writes rest
  end.

(** The documents loaded during a run, oldest first. *)
Fixpoint loads (t : list event) : list json :=
  match t with
  | [] => []
  | Loaded doc :: rest => doc :: loads rest
  | _ :: rest => loads rest
  end.

(** A run from a fresh trace. *)
Definition run {A : Type} (m : M A) (file : option json)
    (user : string -> bool) : result A * world :=
  m {| conf_file := file; answers := user; trace := [] |}.

(** ** The formatter object *)

(** [self.data]: the ["tests"] key of the YAML (absent, or a list of ids)
    and the other keys. *)
Record yml_data : Type := {
  tests_key : option (list string);
  other_keys : dict
}.

(** [data.get("tests", [])] *)
Definition data_get_tests (data : yml_data) : list string :=
  match tests_key data with Some tests => tests | None => [] end.

Record BaseUpdateYML : Type := {
  data : yml_data;
  assume_answer : option bool
}.

Section Format.

(** [CONF_PATH] and [_get_file_id] are imported from modules that are not
    among the sources; the methods are read for any path and any id
    function. *)
Variable CONF_PATH : string.
Variable _get_file_id : string -> yml_data -> string.

Definition skipping_update : string :=
  "[yellow]Unable to find " ++ CONF_PATH ++ " - skipping update.[/yellow]".

(** The [try]/[except] around [self._load_conf_file()] in both methods:
    [None] stands for the [return] of the handler. *)
Definition load_or_skip : M (option json) :=
  try_except_FileNotFoundError
    (conf_json_content <- _load_conf_file ;; ret (Some conf_json_content))
    (logger_debug skipping_update ;; ret None).

(** [BaseUpdateYML.remove_from_conf_json] *)
Definition remove_from_conf_json
    (self : BaseUpdateYML) (file_type content_item_id : string) : M unit :=
  let related_test_playbook := data_get_tests (data self) in
  let no_test_playbooks_explicitly :=
    remove_no_test_playbooks_explicitly related_test_playbook in
  loaded <- load_or_skip ;;
  match loaded with
  | None => ret tt
  | Some conf_json_content =>
      conf_json_test_configuration <-
        lift (getitem conf_json_content "tests") ;;
      remaining <-
        lift (search_and_delete_from_conf
                conf_json_test_configuration content_item_id file_type
                related_test_playbook no_test_playbooks_explicitly) ;;
      conf_json_content' <-
        lift (setitem conf_json_content "tests" remaining) ;;
      _save_to_conf_json conf_json_content'
  end.

(** Lines 309-328 of [update_conf_json]: [None] when the method returns
    before the comparison, otherwise the loaded document, the item's id and
    [not_registered_tests]. *)
Definition update_conf_json_find (self : BaseUpdateYML) (file_type : string)
  : M (option (json * string * list string)) :=
  let test_playbooks := data_get_tests (data self) in
  match test_playbooks with
  | [] => ret None
  | _ :: _ =>
      if update_no_test_playbooks_explicitly test_playbooks then ret None
      else
        loaded <- load_or_skip ;;
        match loaded with
        | None => ret None
        | Some conf_json_content =>
            conf_json_test_configuration <-
              lift (getitem conf_json_content "tests") ;;
            let content_item_id := _get_file_id file_type (data self) in
            not_registered_tests <-
              lift (get_not_registered_tests
                      conf_json_test_configuration content_item_id file_type
                      test_playbooks) ;;
            ret (Some (conf_json_content, content_item_id,
                       not_registered_tests))
        end
  end.

(** Lines 331-340: the confirmation. *)
Definition should_edit_conf_json
    (self : BaseUpdateYML) (not_registered_tests : list string) : M bool :=
  let not_registered_tests_string := String.concat LF not_registered_tests in
  match assume_answer self with
  | Some true => ret true
  | Some false => ret false
  | None => click_confirm (confirm_prompt not_registered_tests_string)
  end.

(** Lines 329-352 of [update_conf_json]. *)
Definition update_conf_json_apply
    (self : BaseUpdateYML) (file_type : string) (conf_json_content : json)
    (content_item_id : string) (not_registered_tests : list string)
  : M unit :=
  match not_registered_tests with
  | _ :: _ =>
      should_edit <- should_edit_conf_json self not_registered_tests ;;
      if (should_edit : bool) then
        conf_json_content' <-
          lift (registerTests conf_json_content not_registered_tests
                  content_item_id file_type) ;;
        _save_to_conf_json conf_json_content' ;;
        logger_info "Added test playbooks to conf.json successfully"
      else logger_info "Skipping test playbooks configuration"
  | [] => logger_debug "No unconfigured test playbooks"
  end.

(** [BaseUpdateYML.update_conf_json] *)
Definition update_conf_json (self : BaseUpdateYML) (file_type : string)
  : M unit :=
  found <- update_conf_json_find self file_type ;;
  match found with
  | None => ret tt
  | Some (conf_json_content, content_item_id, not_registered_tests) =>
      update_conf_json_apply self file_type conf_json_content
        content_item_id not_registered_tests
  end.

End Format.

(** ** What a run asked the user *)

(** The prompts shown during a run, oldest first. *)
Fixpoint prompts (t : list event) : list string :=
  match t with
  | [] => []
  | Asked prompt _ :: rest => prompt :: prompts rest
  | _ :: rest => prompts rest
  end.

(** ** update_generic_yml.py: [update_tests] *)

(** The other attributes of the formatter object that the methods below
    read. *)
Record attributes : Type := {
  source_file : string;
  output_file : string;
  add_tests : bool;
  old_file : option yml_data
}.

(** A command as the methods read it: a dict with an ["id"] and possibly a
    ["source"]. *)
Record command : Type := {
  command_id : option string;
  command_source : option string
}.

(** [command.get("source", "")] *)
Definition get_source (c : command) : string :=
  match command_source c with Some s => s | None => EmptyString end.

(** What the loop reads of one test playbook file: its id and the result of
    [get_scripts_and_commands_from_yml_data] on it. *)
Record test_playbook : Type := {
  tpb_id : string;
  tpb_commands : list command;
  tpb_scripts : list string
}.

(** [==] on the values of [.get("id")]. *)
Definition id_eqb (a b : option string) : bool :=
  match a, b with
  | Some x, Some y => x =? y
  | None, None => true
  | _, _ => false
  end.

(** [names.index(x)] for an [x] that is in [names]. *)
Fixpoint index_of (x : option string) (names : list (option string)) : nat :=
  match names with
  | [] => 0
  | n :: rest => if id_eqb n x then 0 else S (index_of x rest)
  end.

(** The loop over [tpb_commands], lines 223-243: [true] when it leaves by
    [break], after appending the test playbook.  [added] is still [False]
    whenever the second [if] is reached, since setting it is followed by
    [break]. *)
Fixpoint commands_loop
    (file_id : string) (commands tpb_commands : list command) : bool :=
  match tpb_commands with
  | [] => false
  | tpb_command :: rest =>
      let tpb_command_name := command_id tpb_command in
      let tpb_command_source := get_source tpb_command in
      if truthy tpb_command_source && truthy file_id
         && negb (file_id =? tpb_command_source)
      then commands_loop file_id commands rest
      else
        let commands_names := map command_id commands in
        if existsb (id_eqb tpb_command_name) commands_names then
          match nth_error commands
                  (index_of tpb_command_name commands_names) with
          | Some command =>
              let command_source := get_source command in
              if (command_source =? tpb_command_source)
                 || (command_source =? EmptyString)
              then true
              else commands_loop file_id commands rest
          | None => commands_loop file_id commands rest
          end
        else commands_loop file_id commands rest
  end.

(** The loop over [tpb_scripts], lines 246-249. *)
Fixpoint scripts_loop (scripts tpb_scripts : list string) : bool :=
  match tpb_scripts with
  | [] => false
  | tpb_script :: rest =>
      if mem tpb_script scripts then true else scripts_loop scripts rest
  end.

(** One turn of the loop over the test playbook files, lines 205-249. *)
Definition collect_test_playbook
    (file_id : string) (commands : list command) (scripts : list string)
    (test_playbook_ids : list string) (tpb : test_playbook) : list string :=
  match scripts, commands with
  | [], [] => test_playbook_ids ++ [tpb_id tpb]
  | _, _ =>
      if commands_loop file_id commands (tpb_commands tpb) then
        test_playbook_ids ++ [tpb_id tpb]
      else if scripts_loop scripts (tpb_scripts tpb) then
        test_playbook_ids ++ [tpb_id tpb]
      else test_playbook_ids
  end.

Definition collect_test_playbooks
    (file_id : string) (commands : list command) (scripts : list string)
    (test_playbooks_files : list test_playbook) : list string :=
  fold_left (collect_test_playbook file_id commands scripts)
            test_playbooks_files [].

(** The double quote of the messages. *)
Definition DQ : string := String (ascii_of_nat 34) EmptyString.

Definition no_tests_prompt (source : string) : string :=
  "The file " ++ source ++ " has no test playbooks "
  ++ "configured. Do you want to configure it with "
  ++ DQ ++ "No tests" ++ DQ ++ "?".

(** [self.data["tests"] = tests] *)
Definition set_tests (d : yml_data) (tests : list string) : yml_data :=
  {| tests_key := Some tests; other_keys := other_keys d |}.

(** [BaseUpdateYML.update_tests]; the result is [self.data] as the method
    leaves it.  [file_id], [commands] and [scripts] are what
    [get_entity_id_by_entity_type] and
    [get_scripts_and_commands_from_yml_data] return for the file;
    [test_playbooks_dir] is what listing the pack's TestPlaybooks directory
    and reading its test playbooks gives, [None] when the listing raises
    [FileNotFoundError]. *)
Definition update_tests
    (self : BaseUpdateYML) (attrs : attributes) (file_id : string)
    (commands : list command) (scripts : list string)
    (test_playbooks_dir : option (list test_playbook)) : M yml_data :=
  match data_get_tests (data self) with
  | _ :: _ => ret (data self)
  | [] =>
      let test_playbook_ids :=
        match test_playbooks_dir with
        | Some test_playbooks_files =>
            collect_test_playbooks file_id commands scripts
              test_playbooks_files
        | None => []
        end in
      let data1 :=
        match test_playbooks_dir with
        | Some _ => set_tests (data self) test_playbook_ids
        | None => data self
        end in
      match test_playbook_ids with
      | [] =>
          should_modify_yml_tests <-
            match assume_answer self, add_tests attrs with
            | Some true, _ => ret true
            | _, false => ret true
            | Some false, true => ret false
            | None, true =>
                click_confirm (no_tests_prompt (source_file attrs))
            end ;;
          if (should_modify_yml_tests : bool) then
            logger_info ("Formatting " ++ output_file attrs ++ " with "
                         ++ DQ ++ "No tests" ++ DQ) ;;
            ret (set_tests data1 ["No tests (auto formatted)"])
          else
            logger_debug ("Not formatting " ++ source_file attrs ++ " with "
                          ++ DQ ++ "No tests" ++ DQ) ;;
            ret data1
      | _ :: _ => ret data1
      end
  end.

(** ** update_generic_yml.py: [update_deprecate] *)

(** Truth value of [self.data.get("tests")]. *)
Definition truthy_tests (d : yml_data) : bool :=
  match data_get_tests d with [] => false | _ :: _ => true end.

(** [s.endswith(suffix)] *)
Fixpoint ends_with (suffix s : string) : bool :=
  (s =? suffix)
  || match s with
     | EmptyString => false
     | String _ rest => ends_with suffix rest
     end.

(** [self.data[k] = v] for a key other than ["tests"]. *)
Definition set_key (d : yml_data) (k : string) (v : json) : yml_data :=
  {| tests_key := tests_key d; other_keys := assoc_set k v (other_keys d) |}.

(** The loop [for command in ...: command["deprecated"] = True] over a
    list: the commands as the loop leaves them, and the exception that
    stopped it, if any.  Only a dict takes the assignment. *)
Fixpoint deprecate_commands (commands : list json)
  : list json * option exn :=
  match commands with
  | [] => ([], None)
  | JDict command :: rest =>
      let (rest', stopped) := deprecate_commands rest in
      (JDict (assoc_set "deprecated" (JBool true) command) :: rest', stopped)
  | other :: rest => (other :: rest, Some TypeError)
  end.

(** Lines 382-383: [self.data.get("script", {}).get("commands", [])] and the
    loop over it, with the commands updated in place. *)
Definition deprecate_script_commands (d : yml_data) : yml_data * option exn :=
  match assoc_get "script" (other_keys d) with
  | None => (d, None)
  | Some (JDict script) =>
      match assoc_get "commands" script with
      | None => (d, None)
      | Some (JList commands) =>
          let (commands', stopped) := deprecate_commands commands in
          (set_key d "script"
             (JDict (assoc_set "commands" (JList commands') script)),
           stopped)
      | Some (JDict []) => (d, None)
      | Some (JStr EmptyString) => (d, None)
      | Some _ => (d, Some TypeError)
      end
  | Some _ => (d, Some AttributeError)
  end.

(** Lines 377-380: the display name gets its suffix once. *)
Definition deprecate_display (d : yml_data) : yml_data * option exn :=
  match assoc_get "display" (other_keys d) with
  | None => (d, None)
  | Some (JStr display) =>
      if ends_with "(Deprecated)" display then (d, None)
      else (set_key d "display" (JStr (display ++ " (Deprecated)")), None)
  | Some _ => (d, Some AttributeError)
  end.

Section Deprecate.

(** The constants of demisto_sdk/commands/common/constants.py, which is not
    among the sources. *)
Variable INTEGRATION PLAYBOOK SCRIPT NO_TESTS_DEPRECATED : string.

(** [file_type == c]; [file_type] defaults to [None]. *)
Definition is_type (file_type : option string) (c : string) : bool :=
  match file_type with Some ft => ft =? c | None => false end.

(** Lines 388-396: the description after the user's reply to [input]. *)
Definition deprecation_note (user_response : string) : string :=
  if truthy user_response
  then "Deprecated. Use " ++ user_response ++ " instead."
  else "Deprecated. No available replacement.".

(** [BaseUpdateYML.update_deprecate]: how the method ends and [self.data]
    as it leaves it, also when it raises.  [user_response] is the line
    typed at the [input] prompt. *)
Definition update_deprecate
    (d : yml_data) (file_type : option string) (user_response : string)
  : result unit * yml_data :=
  let d1 := set_key d "deprecated" (JBool true) in
  let d2 :=
    if truthy_tests d1
       || is_type file_type INTEGRATION
       || is_type file_type PLAYBOOK
       || is_type file_type SCRIPT
    then set_tests d1 [NO_TESTS_DEPRECATED]
    else d1 in
  let finish (description_field : string) (d' : yml_data) :=
    (Ok tt,
     set_key d' description_field (JStr (deprecation_note user_response))) in
  if is_type file_type INTEGRATION || is_type file_type PLAYBOOK then
    if is_type file_type INTEGRATION then
      match deprecate_display d2 with
      | (d3, Some e) => (Err e, d3)
      | (d3, None) =>
          match deprecate_script_commands d3 with
          | (d4, Some e) => (Err e, d4)
          | (d4, None) => finish "description" d4
          end
      end
    else finish "description" d2
  else finish "comment" d2.

End Deprecate.

(** The display name needs no further suffix. *)
Definition display_settled (d : yml_data) : Prop :=
  match assoc_get "display" (other_keys d) with
  | None => True
  | Some (JStr display) => ends_with "(Deprecated)" display = true
  | Some _ => False
  end.

(** The commands of the script section are all marked already. *)
Definition commands_settled (d : yml_data) : Prop :=
  match assoc_get "script" (other_keys d) with
  | None => True
  | Some (JDict script) =>
      match assoc_get "commands" script with
      | None => True
      | Some (JList commands) => deprecate_commands commands = (commands, None)
      | Some (JDict []) => True
      | Some (JStr EmptyString) => True
      | Some _ => False
      end
  | Some _ => False
  end.

(** ** update_generic_yml.py: [copy_tests_from_old_file] and
    [remove_nativeimage_tag_if_exist] *)

(** Truth value of a YAML dict: it has a key. *)
Definition truthy_data (d : yml_data) : bool :=
  match tests_key d, other_keys d with
  | None, [] => false
  | _, _ => true
  end.

(** [BaseUpdateYML.copy_tests_from_old_file]: [self.data] as the method
    leaves it; [old_file] is [None] when there is no old file. *)
Definition copy_tests_from_old_file
    (d : yml_data) (old_file : option yml_data) : yml_data :=
  match old_file with
  | Some old =>
      if truthy_data old then
        if negb (truthy_tests d) && truthy_tests old then
          {| tests_key := tests_key old; other_keys := other_keys d |}
        else d
      else d
  | None => d
  end.

(** Truth value of a parsed value. *)
Definition truthy_json (j : json) : bool :=
  match j with
  | JNull => false
  | JBool b => b
  | JNum n => negb (n =? 0)%Z
  | JStr s => truthy s
  | JList [] => false
  | JList (_ :: _) => true
  | JDict [] => false
  | JDict (_ :: _) => true
  end.

(** [d.pop(k)] for a key that is present: the binding goes, the other keys
    keep their order. *)
Fixpoint assoc_pop (k : string) (d : dict) : dict :=
  match d with
  | [] => []
  | (k', v) :: rest =>
      if k' =? k then assoc_pop k rest else (k', v) :: assoc_pop k rest
  end.

(** Truth value of [d.get(k)]. *)
Definition truthy_at (k : string) (d : dict) : bool :=
  match assoc_get k d with Some v => truthy_json v | None => false end.

(** [BaseUpdateYML.remove_nativeimage_tag_if_exist] *)
Definition remove_nativeimage_tag_if_exist (d : yml_data) : yml_data :=
  if truthy_at "nativeimage" (other_keys d) then
    {| tests_key := tests_key d;
       other_keys := assoc_pop "nativeimage" (other_keys d) |}
  else
    match assoc_get "script" (other_keys d) with
    | Some (JDict script_section) =>
        if truthy_json (JDict script_section)
           && truthy_at "nativeimage" script_section
        then set_key d "script"
               (JDict (assoc_pop "nativeimage" script_section))
        else d
    | _ => d
    end.

(** ** TestSuite/conf_json.py: the fixture's name *)

(** [s.rstrip("-")] *)
Fixpoint rstrip_dash (s : string) : string :=
  match s with
  | EmptyString => EmptyString
  | String c rest =>
      match rstrip_dash rest with
      | EmptyString =>
          if (c =? "-")%char then EmptyString else String c EmptyString
      | kept => String c kept
      end
  end.

(** [ConfJSON.__init__], line 12: [f'{prefix.rstrip("-")}-{name}']. *)
Definition ConfJSON_name (prefix name : string) : string :=
  rstrip_dash prefix ++ "-" ++ name.

(** [n] dashes. *)
Fixpoint dashes (n : nat) : string :=
  match n with
  | O => EmptyString
  | S m => String "-" (dashes m)
  end.

(** ** tests_end_to_end/e2e_tests_utils.py *)

(** [s.split(" ")]: the first piece and the pieces after it. *)
Fixpoint split_first (s : string) : string * list string :=
  match s with
  | EmptyString => (EmptyString, [])
  | String c rest =>
      let (piece, pieces) := split_first rest in
      if (c =? " ")%char then (EmptyString, piece :: pieces)
      else (String c piece, pieces)
  end.

Definition split_space (s : string) : list string :=
  let (piece, pieces) := split_first s in piece :: pieces.

Record CompletedProcess : Type := {
  args : list string;
  returncode : Z
}.

Inductive e2e_exn : Type :=
| Exception (msg : string)
| CalledProcessError (code : Z) (cmd : list string).

(** [cli]; [subprocess_run] gives the return code of the process started
    with an argument vector. *)
Definition cli (subprocess_run : list string -> Z) (command : string)
  : e2e_exn + CompletedProcess :=
  if truthy command then
    let run_req := split_space command in
    let ret_value :=
      {| args := run_req; returncode := subprocess_run run_req |} in
    if (returncode ret_value =? 0)%Z then inr ret_value
    else inl (CalledProcessError (returncode ret_value) (args ret_value))
  else inl (Exception "cli cannot be empty.").

(** [connect_to_server]; [configure] and [get_demisto_version] stand for
    [demisto_client.configure] and the helper of the same name. *)
Definition connect_to_server
    {client : Type} (configure : option bool -> client)
    (get_demisto_version : client -> string) (insecure : bool)
  : e2e_exn + client :=
  let verify := if insecure then Some (negb insecure) else None in
  let client := configure verify in
  let demisto_version := get_demisto_version client in
  if demisto_version =? "0" then
    inl (Exception "Could not connect to XSOAR server. Please check your connection configurations.")
  else inr client.

(** ** demisto_sdk/common/rest_api.py *)

Record Client : Type := {
  base_url : string;
  verify_cert : bool;
  log_verbose : bool
}.

Inductive http_method : Type := GET | POST.

(** The keyword arguments of [requests.post] and [requests.get]. *)
Record request : Type := {
  method : http_method;
  url : string;
  verify : bool;
  headers : list (string * string);
  files : option (string * string);
  json_body : option json;
  stream : bool
}.

(** What the methods read of a response: whether [raise_for_status] passes
    and what [json()] returns. *)
Record response : Type := {
  status_ok : bool;
  body : json
}.

Inductive api_exn : Type :=
| RuntimeError (msg : string)
| HTTPError.

Inductive api_event : Type :=
| Printed (msg : string) (verbose : bool)
| Sent (req : request)
| Closed.

(** The requests sent during a call, oldest first. *)
Fixpoint sent (events : list api_event) : list request :=
  match events with
  | [] => []
  | Sent req :: rest => req :: sent rest
  | _ :: rest => sent rest
  end.

Definition DEMISTO_API_KEY_ENV : string := "DEMISTO_API_KEY".
Definition INTEGRATION_UPLOAD_PATH : string :=
  "/settings/integration-conf/upload".
Definition ENTRY_EXECUTE_PATH : string := "/entry/execute/sync".
Definition ENTRY_DOWNLOAD_PATH : string := "/entry/download/".
Definition INVESTIGATION_SEARCH_PATH : string := "/investigations/search".

(** [Client.get_api_key]; [environ_key] is
    [os.environ.get('DEMISTO_API_KEY', None)]. *)
Definition get_api_key (environ_key : option string) : api_exn + string :=
  match environ_key with
  | None =>
      inl (RuntimeError ("Error: Environment variable "
                         ++ DEMISTO_API_KEY_ENV ++ " not found"))
  | Some ans => inr ans
  end.

Section RestApi.

(** [urllib.parse.urljoin], [json.dumps(..., indent=4)] and the server that
    answers the requests. *)
Variable urljoin : string -> string -> string.
Variable dumps : json -> string.
Variable server : request -> response.

(** A method's outcome and what it printed, sent and closed, in order. *)
Definition api (A : Type) : Type := (api_exn + A) * list api_event.

(** [Client.upload_integration] *)
Definition upload_integration
    (self : Client) (environ_key : option string) (yml_file : string)
  : api unit :=
  match get_api_key environ_key with
  | inl e => (inl e, [])
  | inr api_key =>
      let api_url := urljoin (base_url self) INTEGRATION_UPLOAD_PATH in
      let req :=
        {| method := POST; url := api_url; verify := verify_cert self;
           headers := [ ("Accept", "application/json");
                        ("Authorization", api_key) ];
           files := Some ("file", yml_file);
           json_body := None; stream := false |} in
      let result := server req in
      let begun :=
        [ Printed ("Uploading integration to " ++ base_url self)
                  (log_verbose self);
          Sent req ] in
      if status_ok result then
        (inr tt,
         begun
         ++ (if log_verbose self
             then [ Printed ("Result: " ++ dumps (body result))
                            (log_verbose self) ]
             else [])
         ++ [Closed])
      else (inl HTTPError, begun)
  end.

(** [Client.search_investigations] *)
Definition search_investigations
    (self : Client) (environ_key : option string) (search_filter : json)
  : api json :=
  match get_api_key environ_key with
  | inl e => (inl e, [])
  | inr api_key =>
      let api_url := urljoin (base_url self) INVESTIGATION_SEARCH_PATH in
      let req :=
        {| method := POST; url := api_url; verify := verify_cert self;
           headers := [ ("Accept", "application/json");
                        ("Content-Type", "application/json");
                        ("Authorization", api_key) ];
           files := None;
           json_body := Some search_filter; stream := false |} in
      let result := server req in
      let begun :=
        [ Printed ("Searching investigations on " ++ base_url self
                   ++ " with filter " ++ dumps search_filter)
                  (log_verbose self);
          Sent req ] in
      if status_ok result then
        let ans := body result in
        (inr ans,
         begun ++ [ Printed ("Result: " ++ dumps ans) (log_verbose self) ])
      else (inl HTTPError, begun)
  end.

(** [Client.run_query] *)
Definition run_query
    (self : Client) (environ_key : option string)
    (investigation_id query : string) : api json :=
  match get_api_key environ_key with
  | inl e => (inl e, [])
  | inr api_key =>
      let api_url := urljoin (base_url self) ENTRY_EXECUTE_PATH in
      let req :=
        {| method := POST; url := api_url; verify := verify_cert self;
           headers := [ ("Accept", "application/json");
                        ("Content-Type", "application/json");
                        ("Authorization", api_key) ];
           files := None;
           json_body :=
             Some (JDict [ ("investigationId", JStr investigation_id);
                           ("version", JNum 0);
                           ("id", JStr EmptyString);
                           ("args", JDict []);
                           ("data", JStr query) ]);
           stream := false |} in
      let result := server req in
      let begun :=
        [ Printed ("Executing query " ++ query
                   ++ " on investigation with the ID: '"
                   ++ investigation_id ++ "' "
                   ++ "via " ++ base_url self)
                  (log_verbose self);
          Sent req ] in
      if status_ok result then
        let ans := body result in
        (inr ans,
         begun ++ [ Printed ("Result: " ++ dumps ans) (log_verbose self) ])
      else (inl HTTPError, begun)
  end.

(** [Client.download_file] *)
Definition download_file
    (self : Client) (environ_key : option string) (file_id : string)
  : api response :=
  match get_api_key environ_key with
  | inl e => (inl e, [])
  | inr api_key =>
      let api_url := urljoin (base_url self) ENTRY_DOWNLOAD_PATH in
      let download_path := urljoin api_url file_id in
      let req :=
        {| method := GET; url := download_path; verify := verify_cert self;
           headers := [ ("Accept", "application/json");
                        ("Content-Type", "application/json");
                        ("Authorization", api_key) ];
           files := None; json_body := None; stream := true |} in
      let result := server req in
      let begun :=
        [ Printed ("Downloading " ++ file_id ++ " via " ++ base_url self)
                  (log_verbose self);
          Sent req ] in
      if status_ok result then
        (inr result,
         begun ++ [ Printed "Server returned OK" (log_verbose self) ])
      else (inl HTTPError, begun)
  end.

End RestApi.

(** [headers[name]] *)
Fixpoint header (name : string) (hs : list (string * string))
  : option string :=
  match hs with
  | [] => None
  | (n, v) :: rest => if n =? name then Some v else header name rest
  end.

(** ** Concrete inputs used by the scenarios *)

Definition slack_entry : json :=
  JDict [ ("playbookID", JStr "TPB1"); ("integrations", JStr "Slack") ].

(** The registry of the spec's scenarios 5 and 6. *)
Definition slack_registry : json := JDict [ ("tests", JList [slack_entry]) ].

(** A registry with metadata beside its tests. *)
Definition full_registry : json :=
  JDict [ ("tests", JList [slack_entry]);
          ("skipped_tests", JDict [ ("TPB9", JStr "flaky") ]);
          ("docker_thresholds", JDict []) ].

(** A document without the ["tests"] key. *)
Definition broken_registry : json :=
  JDict [ ("skipped_tests", JDict []) ].

Definition slack_id (file_type : string) (d : yml_data) : string := "Slack".

Definition formatter (tests : list string) (answer : option bool)
  : BaseUpdateYML :=
  {| data := {| tests_key := Some tests; other_keys := [] |};
     assume_answer := answer |}.

Definition always (b : bool) (prompt : string) : bool := b.

(** ** Concrete inputs for the further properties *)

Definition slack_attributes : attributes :=
  {| source_file := "Packs/Slack/Integrations/Slack/Slack.yml";
     output_file := "Packs/Slack/Integrations/Slack/Slack.yml";
     add_tests := true;
     old_file := None |}.

(** An integration YAML with a display name and one command. *)
Definition slack_yml : yml_data :=
  {| tests_key := Some ["TPB1"];
     other_keys :=
       [ ("display", JStr "Slack");
         ("script",
          JDict [ ("commands",
                   JList [ JDict [ ("name", JStr "send-message") ] ]) ]) ] |}.

(** A script YAML without tests. *)
Definition plain_script_yml : yml_data :=
  {| tests_key := None; other_keys := [ ("name", JStr "Hello") ] |}.

(** A command of another integration. *)
Definition jira_command : command :=
  {| command_id := Some "get-issue"; command_source := Some "Jira" |}.

Definition initial_world : world :=
  {| conf_file := Some slack_registry; answers := always true; trace := [] |}.

(** * Properties *)

(** ** Strings and sentinels *)

Lemma prefix_app_l (a b s : string) :
  prefix (a ++ b) s = true -> prefix a s = true.
Proof.
  revert s. induction a as [| c a IH]; intros s H.
  - destruct s; reflexivity.
  - destruct s as [| c' s]; simpl in *.
    + discriminate.
    + destruct (ascii_dec c c'); [apply IH; exact H | discriminate].
Qed.

Lemma str_in_app_l (a b s : string) :
  str_in (a ++ b) s = true -> str_in a s = true.
Proof.
  induction s as [| c s IH]; intros H.
  - cbn [str_in] in *. rewrite orb_false_r in *. now apply prefix_app_l with b.
  - cbn [str_in] in *. apply orb_true_iff in H. apply orb_true_iff.
    destruct H as [H | H].
    + left. now apply prefix_app_l with b.
    + right. now apply IH.
Qed.

(** The second disjunct of the sentinel test adds nothing. *)
Lemma is_sentinel_no_test (id : string) :
  is_sentinel id = str_in "no test" (lower id).
Proof.
  unfold is_sentinel.
  destruct (str_in "no test" (lower id)) eqn:A; [reflexivity |].
  destruct (str_in "no tests" (lower id)) eqn:B; [| reflexivity].
  change "no tests" with ("no test" ++ "s")%string in B.
  apply str_in_app_l in B. congruence.
Qed.

Lemma sentinel_truthy (s : string) : is_sentinel s = true -> truthy s = true.
Proof. destruct s; [discriminate | reflexivity]. Qed.

(** [any(x for x in xs if p(x))] is [exists x in xs, p(x)] when [p] holds of
    non-empty strings only. *)
Lemma any_filter (p : string -> bool) (xs : list string) :
  (forall s, p s = true -> truthy s = true) ->
  any (filter p xs) = existsb p xs.
Proof.
  intros Hp. induction xs as [| x xs IH]; [reflexivity |].
  simpl. destruct (p x) eqn:Px; simpl.
  - now rewrite (Hp x Px).
  - exact IH.
Qed.

Lemma existsb_pointwise {A : Type} (p q : A -> bool) (xs : list A) :
  (forall x, p x = q x) -> existsb p xs = existsb q xs.
Proof.
  intros H. induction xs as [| x xs IH]; simpl; [reflexivity |].
  now rewrite H, IH.
Qed.

Lemma update_condition_any (test_playbooks : list string) :
  update_no_test_playbooks_explicitly test_playbooks
  = existsb is_sentinel test_playbooks.
Proof.
  unfold update_no_test_playbooks_explicitly.
  rewrite any_filter.
  - apply existsb_pointwise. intros s. now rewrite is_sentinel_no_test.
  - intros s H. apply sentinel_truthy. now rewrite is_sentinel_no_test.
Qed.

Lemma remove_condition_any (related_test_playbook : list string) :
  remove_no_test_playbooks_explicitly related_test_playbook
  = existsb is_sentinel related_test_playbook.
Proof.
  unfold remove_no_test_playbooks_explicitly.
  rewrite any_filter; [reflexivity |].
  intros s H. now apply sentinel_truthy.
Qed.

(** ** Dicts *)

Lemma assoc_get_set_same (k : string) (v : json) (d : dict) :
  assoc_get k (assoc_set k v d) = Some v.
Proof.
  induction d as [| [k' v'] d IH]; simpl.
  - now rewrite String.eqb_refl.
  - destruct (k' =? k) eqn:E; simpl; rewrite E; [reflexivity | exact IH].
Qed.

Lemma assoc_get_set_other (k k' : string) (v : json) (d : dict) :
  k' <> k -> assoc_get k' (assoc_set k v d) = assoc_get k' d.
Proof.
  intros Hne. induction d as [| [k0 v0] d IH]; simpl.
  - destruct (k =? k') eqn:E; [| reflexivity].
    apply String.eqb_eq in E. congruence.
  - destruct (k0 =? k) eqn:E; simpl.
    + apply String.eqb_eq in E. subst k0.
      destruct (k =? k') eqn:E'; [| reflexivity].
      apply String.eqb_eq in E'. congruence.
    + now rewrite IH.
Qed.

Lemma assoc_set_keys (k : string) (v v0 : json) (d : dict) :
  assoc_get k d = Some v0 -> keys (assoc_set k v d) = keys d.
Proof.
  induction d as [| [k' v'] d IH]; simpl; [discriminate |].
  destruct (k' =? k) eqn:E; simpl; [reflexivity |].
  intros H. f_equal. now apply IH.
Qed.

Lemma assoc_set_same_value (k : string) (v : json) (d : dict) :
  assoc_get k d = Some v -> assoc_set k v d = d.
Proof.
  induction d as [| [k' v'] d IH]; simpl; [discriminate |].
  destruct (k' =? k) eqn:E.
  - intros [= ->]. reflexivity.
  - intros H. f_equal. now apply IH.
Qed.

Lemma getitem_ok_inv (o : json) (k : string) (v : json) :
  getitem o k = Ok v -> exists d, o = JDict d /\ assoc_get k d = Some v.
Proof.
  destruct o; simpl; try discriminate.
  destruct (assoc_get k fields) eqn:E; [| discriminate].
  intros [= ->]. now exists fields.
Qed.

(** ** The fixture writer *)

(** C4: called with every argument left unset, [ConfJSON.write_json] writes
    a document with exactly the five top-level keys, in which [tests],
    [skipped_integrations] and [unmockable_integrations] are empty sequences
    and [docker_thresholds] an empty mapping, but [skipped_tests] is [null]:
    the line [skipped_tests = None] leaves the unset field unset. *)
Theorem write_json_unset :
  write_json None None None None None
  = JDict [ ("tests", JList []);
            ("skipped_tests", JNull);
            ("skipped_integrations", JList []);
            ("unmockable_integrations", JList []);
            ("docker_thresholds", JDict []) ].
Proof. reflexivity. Qed.

(** Whatever the arguments, the keys are the same five. *)
Lemma write_json_keys (a b c d e : option json) :
  exists fields,
    write_json a b c d e = JDict fields
    /\ keys fields
       = [ "tests"; "skipped_tests"; "skipped_integrations";
           "unmockable_integrations"; "docker_thresholds" ].
Proof. eexists. split; reflexivity. Qed.

(** ** The entries built for conf.json *)

(** C9: for a [file_type] other than integration, playbook and script,
    [get_test_playbooks_configuration] returns the empty list, whatever the
    test playbooks and the content item id. *)
Theorem get_test_playbooks_configuration_other_kind
    (test_playbooks : list string) (content_item_id file_type : string) :
  file_type <> "integration" ->
  file_type <> "playbook" ->
  file_type <> "script" ->
  get_test_playbooks_configuration test_playbooks content_item_id file_type
  = [].
Proof.
  intros Hi Hp Hs. unfold get_test_playbooks_configuration, mem.
  apply String.eqb_neq in Hi, Hp, Hs.
  rewrite Hi. simpl. rewrite Hp, Hs. reflexivity.
Qed.

Lemma configuration_integration (ids : list string) (cid : string) :
  get_test_playbooks_configuration ids cid "integration"
  = map (fun id => JDict [ ("integrations", JStr cid);
                           ("playbookID", JStr id) ]) ids.
Proof. reflexivity. Qed.

Lemma configuration_plain (ids : list string) (cid kind : string) :
  kind = "script" \/ kind = "playbook" ->
  get_test_playbooks_configuration ids cid kind
  = map (fun id => JDict [ ("playbookID", JStr id) ]) ids.
Proof. intros [-> | ->]; reflexivity. Qed.

(** ** Running the methods *)

Lemma findUnregistered_no_sentinel
    (entries : list json) (cid kind : string) (declared : list string) :
  existsb is_sentinel declared = false ->
  findUnregistered entries cid kind declared
  = filter (fun id => negb (existsb (entry_links cid kind id) entries))
           declared.
Proof.
  unfold findUnregistered.
  induction declared as [| id declared IH]; [reflexivity |].
  simpl. intros H. apply orb_false_iff in H. destruct H as [Hid Hrest].
  rewrite Hid. simpl. now rewrite (IH Hrest).
Qed.

(** ** Matching an entry *)

Lemma is_str_iff (x : string) (j : json) : is_str x j = true <-> j = JStr x.
Proof.
  destruct j; simpl; try (split; [discriminate | intros [=]]).
  rewrite String.eqb_eq. split; [now intros -> | now intros [= ->]].
Qed.

Lemma entry_playbook_is_iff (entry : json) (id : string) :
  entry_playbook_is entry id = true
  <-> dict_get entry "playbookID" = Some (JStr id).
Proof.
  unfold entry_playbook_is.
  destruct (dict_get entry "playbookID") as [j |].
  - rewrite is_str_iff. split; [now intros -> | now intros [= ->]].
  - split; discriminate.
Qed.

Lemma existsb_is_str (x : string) (js : list json) :
  existsb (is_str x) js = true <-> In (JStr x) js.
Proof.
  rewrite existsb_exists. split.
  - intros [j [Hin Hj]]. apply is_str_iff in Hj. now subst j.
  - intros Hin. exists (JStr x). split; [exact Hin | now apply is_str_iff].
Qed.

Lemma integrations_contain_iff (entry : json) (cid : string) :
  integrations_contain entry cid = true
  <-> dict_get entry "integrations" = Some (JStr cid)
      \/ exists ids,
           dict_get entry "integrations" = Some (JList ids)
           /\ In (JStr cid) ids.
Proof.
  unfold integrations_contain.
  destruct (dict_get entry "integrations") as [j |].
  - destruct j;
      try (simpl; split;
           [discriminate | intros [[=] | [ids [[=] _]]]]).
    + simpl. rewrite String.eqb_eq. split.
      * intros ->. now left.
      * intros [[= ->] | [ids [[=] _]]]. reflexivity.
    + rewrite existsb_is_str. split.
      * intros Hin. right. now exists items.
      * intros [[=] | [ids [[= ->] Hin]]]. exact Hin.
  - split; [discriminate | intros [[=] | [ids [[=] _]]]].
Qed.

Lemma In_findUnregistered
    (entries : list json) (cid kind : string) (declared : list string)
    (id : string) :
  In id (findUnregistered entries cid kind declared)
  <-> In id declared
      /\ is_sentinel id = false
      /\ existsb (entry_links cid kind id) entries = false.
Proof.
  unfold findUnregistered. rewrite filter_In, andb_true_iff.
  rewrite !negb_true_iff. tauto.
Qed.

(** C2: on the registry [{"tests": [{"playbookID": "TPB1", "integrations":
    "Slack"}]}], the integration [Slack] with declared tests [TPB1], [TPB2]
    has exactly [TPB2] unregistered, both for the comparison itself and for
    [update_conf_json] calling it; and for an integration a declared id that
    is no sentinel is registered exactly when some entry has that
    [playbookID] and an [integrations] field that is the item's id or a
    sequence holding it. *)
Theorem slack_scenario_integration_match (CONF_PATH : string) :
  findUnregistered [slack_entry] "Slack" "integration" ["TPB1"; "TPB2"]
  = ["TPB2"]
  /\ (forall user,
        fst (run (update_conf_json_find CONF_PATH slack_id
                    (formatter ["TPB1"; "TPB2"] None) "integration")
                 (Some slack_registry) user)
        = Ok (Some (slack_registry, "Slack", ["TPB2"])))
  /\ (forall entries cid declared id,
        In id declared ->
        is_sentinel id = false ->
        (~ In id (findUnregistered entries cid "integration" declared)
         <-> exists entry,
               In entry entries
               /\ dict_get entry "playbookID" = Some (JStr id)
               /\ (dict_get entry "integrations" = Some (JStr cid)
                   \/ exists ids,
                        dict_get entry "integrations" = Some (JList ids)
                        /\ In (JStr cid) ids))).
Proof.
  split; [reflexivity |]. split; [reflexivity |].
  intros entries cid declared id Hin Hs.
  rewrite In_findUnregistered.
  assert (Hlinks : existsb (entry_links cid "integration" id) entries = true
                   <-> exists entry,
                         In entry entries
                         /\ dict_get entry "playbookID" = Some (JStr id)
                         /\ (dict_get entry "integrations" = Some (JStr cid)
                             \/ exists ids,
                                  dict_get entry "integrations"
                                  = Some (JList ids)
                                  /\ In (JStr cid) ids)).
  { rewrite existsb_exists. split.
    - intros [entry [He Hl]]. exists entry. split; [exact He |].
      unfold entry_links in Hl. simpl in Hl. apply andb_true_iff in Hl.
      destruct Hl as [Hp Hi].
      split; [now apply entry_playbook_is_iff
             | now apply integrations_contain_iff].
    - intros [entry [He [Hp Hi]]]. exists entry. split; [exact He |].
      unfold entry_links. simpl. apply andb_true_iff.
      split; [now apply entry_playbook_is_iff
             | now apply integrations_contain_iff]. }
  rewrite <- Hlinks.
  destruct (existsb (entry_links cid "integration" id) entries).
  - split; [reflexivity | intros _ [_ [_ H]]; discriminate].
  - split; [intros H; exfalso; apply H; auto | discriminate].
Qed.

Section Runs.

Variable CONF_PATH : string.
Variable _get_file_id : string -> yml_data -> string.


(** The two guards of [update_conf_json] return before anything is read. *)
Lemma find_guarded
    (self : BaseUpdateYML) (file_type : string) (file : option json)
    (user : string -> bool) :
  data_get_tests (data self) = []
  \/ existsb is_sentinel (data_get_tests (data self)) = true ->
  run (update_conf_json_find CONF_PATH _get_file_id self file_type) file user
  = (Ok None, {| conf_file := file; answers := user; trace := [] |}).
Proof.
  intros H. unfold update_conf_json_find, run.
  destruct (data_get_tests (data self)) as [| t ts] eqn:E; [reflexivity |].
  destruct H as [H | H]; [discriminate |].
  rewrite update_condition_any, H. reflexivity.
Qed.

(** Past the guards the registry is loaded and compared. *)
Lemma find_compared
    (self : BaseUpdateYML) (file_type : string) (conf : json)
    (entries : list json) (user : string -> bool) :
  data_get_tests (data self) <> [] ->
  existsb is_sentinel (data_get_tests (data self)) = false ->
  getitem conf "tests" = Ok (JList entries) ->
  run (update_conf_json_find CONF_PATH _get_file_id self file_type) (Some conf) user
  = (Ok (Some (conf, _get_file_id file_type (data self),
               findUnregistered entries
                 (_get_file_id file_type (data self)) file_type
                 (data_get_tests (data self)))),
     {| conf_file := Some conf; answers := user; trace := [Loaded conf] |}).
Proof.
  intros Hne Hs Hg. unfold update_conf_json_find, run.
  destruct (data_get_tests (data self)) as [| t ts] eqn:E; [congruence |].
  rewrite update_condition_any, Hs.
  unfold bind, load_or_skip, try_except_FileNotFoundError, _load_conf_file,
    get_file, bind, ret, record. simpl.
  rewrite Hg. simpl. reflexivity.
Qed.

(** C1 (amended): for a registry whose [tests] is a sequence, when the
    declared list is non-empty and holds no "no tests" sentinel, the
    comparison of [update_conf_json] yields exactly the declared ids with no
    matching entry, in declared order; when the declared list is empty or
    holds a sentinel anywhere, the method returns before the registry is
    loaded and no id is reported, however many other ids are declared. *)
Theorem update_conf_json_find_guarded_subsequence
    (self : BaseUpdateYML) (file_type : string) (conf : json)
    (entries : list json) (user : string -> bool) :
  getitem conf "tests" = Ok (JList entries) ->
  let declared := data_get_tests (data self) in
  let cid := _get_file_id file_type (data self) in
  (declared <> [] -> existsb is_sentinel declared = false ->
   fst (run (update_conf_json_find CONF_PATH _get_file_id self file_type) (Some conf) user)
   = Ok (Some (conf, cid,
               filter (fun id =>
                         negb (existsb (entry_links cid file_type id) entries))
                      declared)))
  /\ (declared = [] \/ existsb is_sentinel declared = true ->
      fst (run (update_conf_json_find CONF_PATH _get_file_id self file_type) (Some conf) user) = Ok None
      /\ loads (trace (snd (run (update_conf_json_find CONF_PATH _get_file_id self file_type) (Some conf) user)))
         = []).
Proof.
  intros Hg declared cid. split.
  - intros Hne Hs. rewrite (find_compared _ _ _ entries) by assumption.
    simpl. subst declared cid.
    now rewrite findUnregistered_no_sentinel.
  - intros H. rewrite find_guarded by exact H. split; reflexivity.
Qed.

(** ** Deregistration *)

Lemma load_or_skip_present
    (conf : json) (user : string -> bool) (t : list event) :
  load_or_skip CONF_PATH
    {| conf_file := Some conf; answers := user; trace := t |}
  = (Ok (Some conf),
     {| conf_file := Some conf; answers := user;
        trace := t ++ [Loaded conf] |}).
Proof. reflexivity. Qed.

Lemma load_or_skip_absent (user : string -> bool) (t : list event) :
  load_or_skip CONF_PATH {| conf_file := None; answers := user; trace := t |}
  = (Ok None,
     {| conf_file := None; answers := user;
        trace := t ++ [Logged DEBUG (skipping_update CONF_PATH)] |}).
Proof. reflexivity. Qed.

(** C3 (amended): [remove_from_conf_json] computes its explicit-no-tests
    condition as "at least one declared test is a 'no tests' sentinel";
    whenever that condition is true the registry comes back unchanged: the
    entries are returned as they are, and the document saved is the
    document loaded. *)
Theorem remove_condition_is_any_and_identity
    (self : BaseUpdateYML) (file_type content_item_id : string)
    (conf tests : json) (user : string -> bool) :
  getitem conf "tests" = Ok tests ->
  let related := data_get_tests (data self) in
  remove_no_test_playbooks_explicitly related = existsb is_sentinel related
  /\ (remove_no_test_playbooks_explicitly related = true ->
      search_and_delete_from_conf tests content_item_id file_type related
        (remove_no_test_playbooks_explicitly related) = Ok tests
      /\ (forall entries,
            deregisterTests entries content_item_id file_type related
              (remove_no_test_playbooks_explicitly related) = entries)
      /\ run (remove_from_conf_json CONF_PATH self file_type content_item_id)
             (Some conf) user
         = (Ok tt,
            {| conf_file := Some conf; answers := user;
               trace := [Loaded conf; Written conf] |})).
Proof.
  intros Hg related. split; [apply remove_condition_any |].
  intros Hc. split; [| split].
  - now rewrite Hc.
  - intros entries. now rewrite Hc.
  - unfold remove_from_conf_json, run, bind at 1.
    rewrite load_or_skip_present. fold related. rewrite Hc, Hg.
    destruct (getitem_ok_inv _ _ _ Hg) as [d [-> Hd]].
    unfold bind, lift, ret, search_and_delete_from_conf, setitem,
      _save_to_conf_json. simpl.
    now rewrite (assoc_set_same_value _ _ _ Hd).
Qed.

(** ** A missing or malformed registry *)

(** C7: when loading the registry raises [FileNotFoundError], both
    [update_conf_json] and [remove_from_conf_json] return normally, whatever
    the content item and its declared tests; nothing is written and the
    file is still absent afterwards. *)
Theorem missing_registry_is_skipped
    (self : BaseUpdateYML) (file_type content_item_id : string)
    (user : string -> bool) :
  fst (run _load_conf_file None user) = Err FileNotFoundError
  /\ (let (r, w) :=
        run (update_conf_json CONF_PATH _get_file_id self file_type)
            None user in
      r = Ok tt /\ writes (trace w) = [] /\ conf_file w = None)
  /\ (let (r, w) :=
        run (remove_from_conf_json CONF_PATH self file_type content_item_id)
            None user in
      r = Ok tt /\ writes (trace w) = [] /\ conf_file w = None).
Proof.
  split; [reflexivity |]. split.
  - unfold update_conf_json, update_conf_json_find, run.
    destruct (data_get_tests (data self)) as [| t ts];
      [repeat split |].
    destruct (update_no_test_playbooks_explicitly (t :: ts));
      [repeat split |].
    unfold bind at 1 2. rewrite load_or_skip_absent. repeat split.
  - unfold remove_from_conf_json, run, bind at 1.
    rewrite load_or_skip_absent. repeat split.
Qed.

(** C8: a loaded registry document without the top-level [tests] key makes
    both methods raise [KeyError] to the caller, and nothing is written.
    [remove_from_conf_json] always loads; [update_conf_json] loads exactly
    when the declared list is non-empty and free of sentinels, and it never
    writes. *)
Theorem registry_without_tests_raises
    (self : BaseUpdateYML) (file_type content_item_id : string)
    (fields : dict) (user : string -> bool) :
  assoc_get "tests" fields = None ->
  let conf := JDict fields in
  (let (r, w) :=
     run (remove_from_conf_json CONF_PATH self file_type content_item_id)
         (Some conf) user in
   loads (trace w) = [conf]
   /\ r = Err (KeyError "tests")
   /\ writes (trace w) = [] /\ conf_file w = Some conf)
  /\ (let (r, w) :=
        run (update_conf_json CONF_PATH _get_file_id self file_type)
            (Some conf) user in
      (loads (trace w) <> [] -> r = Err (KeyError "tests"))
      /\ (data_get_tests (data self) <> [] ->
          existsb is_sentinel (data_get_tests (data self)) = false ->
          loads (trace w) = [conf])
      /\ writes (trace w) = [] /\ conf_file w = Some conf).
Proof.
  intros Hnone conf. split.
  - unfold remove_from_conf_json, run, bind at 1.
    rewrite load_or_skip_present.
    unfold bind, lift, getitem, conf. rewrite Hnone. simpl. repeat split.
  - unfold update_conf_json, update_conf_json_find, run.
    rewrite update_condition_any.
    destruct (data_get_tests (data self)) as [| t ts].
    + simpl. repeat split; congruence.
    + destruct (existsb is_sentinel (t :: ts)).
      * simpl. repeat split; congruence.
      * unfold bind at 1 2. rewrite load_or_skip_present.
        unfold bind, lift, getitem, conf. rewrite Hnone. simpl.
        repeat split.
Qed.

(** ** Registration *)

Lemma writes_app (t u : list event) : writes (t ++ u) = writes t ++ writes u.
Proof.
  induction t as [| e t IH]; [reflexivity |].
  destruct e; simpl; now rewrite IH.
Qed.

(** What [should_edit_conf_json] answers, and that it only asks. *)
Lemma should_edit_conf_json_run
    (self : BaseUpdateYML) (ids : list string) (w : world) :
  exists w',
    should_edit_conf_json self ids w
    = (Ok match assume_answer self with
          | Some b => b
          | None => answers w (confirm_prompt (String.concat LF ids))
          end, w')
    /\ conf_file w' = conf_file w
    /\ answers w' = answers w
    /\ writes (trace w') = writes (trace w).
Proof.
  unfold should_edit_conf_json.
  destruct (assume_answer self) as [[|] |].
  - exists w. repeat split.
  - exists w. repeat split.
  - eexists. split; [reflexivity |]. simpl. repeat split.
    rewrite writes_app. simpl. now rewrite app_nil_r.
Qed.

(** When a comparison was made, the registry was read from the file. *)
Lemma find_some_inv
    (self : BaseUpdateYML) (file_type : string) (file : option json)
    (user : string -> bool) (conf : json) (cid : string)
    (ids : list string) (w : world) :
  run (update_conf_json_find CONF_PATH _get_file_id self file_type) file user
  = (Ok (Some (conf, cid, ids)), w) ->
  file = Some conf
  /\ w = {| conf_file := Some conf; answers := user;
            trace := [Loaded conf] |}.
Proof.
  unfold update_conf_json_find, run.
  destruct (data_get_tests (data self)) as [| t ts]; [discriminate |].
  destruct (update_no_test_playbooks_explicitly (t :: ts)); [discriminate |].
  destruct file as [doc |].
  - unfold bind at 1. rewrite load_or_skip_present.
    unfold bind, lift, ret, raise.
    destruct (getitem doc "tests") as [v | e]; [| discriminate].
    destruct (get_not_registered_tests v _ _ _) as [l | e];
      [| discriminate].
    intros [= -> _ _ <-]. split; reflexivity.
  - unfold bind at 1. rewrite load_or_skip_absent. discriminate.
Qed.

(** [update_conf_json] goes on from what the comparison found. *)
Lemma update_after_find
    (self : BaseUpdateYML) (file_type : string) (file : option json)
    (user : string -> bool) (conf : json) (cid : string)
    (ids : list string) (w : world) :
  run (update_conf_json_find CONF_PATH _get_file_id self file_type) file user
  = (Ok (Some (conf, cid, ids)), w) ->
  run (update_conf_json CONF_PATH _get_file_id self file_type) file user
  = update_conf_json_apply self file_type conf cid ids w.
Proof.
  intros H. unfold update_conf_json, run, bind.
  unfold run in H. now rewrite H.
Qed.

Lemma registerTests_run
    (conf : json) (entries : list json) (ids : list string)
    (cid kind : string) :
  getitem conf "tests" = Ok (JList entries) ->
  exists d,
    conf = JDict d
    /\ assoc_get "tests" d = Some (JList entries)
    /\ registerTests conf ids cid kind
       = Ok (JDict (assoc_set "tests"
                      (JList (entries
                              ++ get_test_playbooks_configuration
                                   ids cid kind)) d)).
Proof.
  intros Hg. destruct (getitem_ok_inv _ _ _ Hg) as [d [-> Hd]].
  exists d. repeat split; [exact Hd |].
  unfold registerTests, extend_tests. now rewrite Hg.
Qed.

(** A confirmed registration saves what [registerTests] returns. *)
Lemma apply_confirmed
    (self : BaseUpdateYML) (kind : string) (conf conf' : json)
    (cid : string) (ids : list string) (w : world) :
  ids <> [] ->
  fst (should_edit_conf_json self ids w) = Ok true ->
  registerTests conf ids cid kind = Ok conf' ->
  exists w',
    update_conf_json_apply self kind conf cid ids w = (Ok tt, w')
    /\ conf_file w' = Some conf'
    /\ writes (trace w') = writes (trace w) ++ [conf'].
Proof.
  intros Hne Hyes Hreg. unfold update_conf_json_apply.
  destruct ids as [| i ids']; [congruence |].
  destruct (should_edit_conf_json_run self (i :: ids') w)
    as [w1 [Hrun [Hfile [_ Hwrites]]]].
  set (b := match assume_answer self with
            | Some b0 => b0
            | None => _
            end) in Hrun.
  rewrite Hrun in Hyes. cbn [fst] in Hyes.
  assert (Hb : b = true) by congruence.
  unfold bind at 1. rewrite Hrun, Hb.
  unfold bind at 1. rewrite Hreg.
  unfold lift, ret, bind, _save_to_conf_json, logger_info, record. simpl.
  eexists. split; [reflexivity |]. simpl. split; [reflexivity |].
  rewrite !writes_app, Hwrites. simpl. now rewrite app_nil_r.
Qed.

(** C5: for every list of ids, the registration step of [update_conf_json]
    appends to [tests] the entries of [get_test_playbooks_configuration],
    one per id and in order: [{integrations: item id, playbookID: id}] for
    an integration, [{playbookID: id}] for a script or a playbook.  The
    entries already there stay in front, every other top-level key keeps its
    value and the keys keep their order; with an affirmative confirmation
    and a non-empty list this document is the one written. *)
Theorem registerTests_appends_and_frames
    (conf : json) (entries : list json) (ids : list string)
    (cid kind : string) :
  getitem conf "tests" = Ok (JList entries) ->
  exists conf',
    registerTests conf ids cid kind = Ok conf'
    /\ getitem conf' "tests"
       = Ok (JList (entries ++ get_test_playbooks_configuration ids cid kind))
    /\ (kind = "integration" ->
        get_test_playbooks_configuration ids cid kind
        = map (fun id => JDict [ ("integrations", JStr cid);
                                 ("playbookID", JStr id) ]) ids)
    /\ (kind = "script" \/ kind = "playbook" ->
        get_test_playbooks_configuration ids cid kind
        = map (fun id => JDict [ ("playbookID", JStr id) ]) ids)
    /\ (forall k, k <> "tests" -> dict_get conf' k = dict_get conf k)
    /\ (exists d d', conf = JDict d /\ conf' = JDict d' /\ keys d' = keys d)
    /\ (forall (self : BaseUpdateYML) (w : world),
          ids <> [] ->
          fst (should_edit_conf_json self ids w) = Ok true ->
          let (r, w') :=
            update_conf_json_apply self kind conf cid ids w in
          r = Ok tt
          /\ conf_file w' = Some conf'
          /\ writes (trace w') = writes (trace w) ++ [conf']).
Proof.
  intros Hg.
  destruct (registerTests_run conf entries ids cid kind Hg)
    as [d [-> [Hd Hreg]]].
  eexists. split; [exact Hreg |].
  split; [simpl; now rewrite assoc_get_set_same |].
  split; [intros ->; reflexivity |].
  split; [intros [-> | ->]; reflexivity |].
  split; [intros k Hk; simpl; now apply assoc_get_set_other |].
  split.
  { eexists. eexists. repeat split.
    now apply assoc_set_keys with (JList entries). }
  intros self w Hne Hyes.
  destruct (apply_confirmed self kind _ _ cid ids w Hne Hyes Hreg)
    as [w' [-> [Hfile Hwrites]]].
  repeat split; assumption.
Qed.

(** C10: when [update_conf_json] found unregistered tests and the
    confirmation is negative ([assume_answer] is [False], or the prompt is
    declined), the method returns normally, nothing is written and the file
    holds the document that was loaded. *)
Theorem declined_registration_writes_nothing
    (self : BaseUpdateYML) (file_type : string) (file : option json)
    (user : string -> bool) (conf : json) (cid : string)
    (ids : list string) :
  fst (run (update_conf_json_find CONF_PATH _get_file_id self file_type)
           file user)
  = Ok (Some (conf, cid, ids)) ->
  ids <> [] ->
  assume_answer self = Some false
  \/ (assume_answer self = None
      /\ user (confirm_prompt (String.concat LF ids)) = false) ->
  let (r, w) :=
    run (update_conf_json CONF_PATH _get_file_id self file_type) file user in
  r = Ok tt
  /\ writes (trace w) = []
  /\ conf_file w = file
  /\ file = Some conf.
Proof.
  intros Hfind Hne Hno.
  destruct (run (update_conf_json_find CONF_PATH _get_file_id self file_type)
                file user) as [r0 w0] eqn:E.
  simpl in Hfind. subst r0.
  destruct (find_some_inv _ _ _ _ _ _ _ _ E) as [-> ->].
  unfold update_conf_json, run, bind at 1. unfold run in E. rewrite E.
  unfold update_conf_json_apply.
  destruct ids as [| i ids']; [congruence |].
  set (w0 := {| conf_file := Some conf; answers := user;
                trace := [Loaded conf] |}).
  destruct (should_edit_conf_json_run self (i :: ids') w0)
    as [w1 [Hrun [Hfile [_ Hwrites]]]].
  unfold bind at 1. rewrite Hrun.
  assert (Hb : match assume_answer self with
               | Some b => b
               | None => answers w0 (confirm_prompt
                                       (String.concat LF (i :: ids')))
               end = false).
  { destruct Hno as [-> | [-> Ha]]; [reflexivity | exact Ha]. }
  rewrite Hb. unfold logger_info, record. simpl.
  rewrite writes_app, Hwrites, Hfile. simpl. repeat split.
Qed.

(** ** Registration closes the gap *)

Lemma filter_none {A : Type} (f : A -> bool) (xs : list A) :
  (forall x, In x xs -> f x = false) -> filter f xs = [].
Proof.
  induction xs as [| x xs IH]; intros H; [reflexivity |].
  simpl. rewrite (H x (or_introl eq_refl)).
  apply IH. intros y Hy. apply H. now right.
Qed.

(** The entry built for an id links that id to the content item. *)
Lemma built_entry_links (ids : list string) (cid kind id : string) :
  kind = "integration" \/ kind = "script" \/ kind = "playbook" ->
  In id ids ->
  existsb (entry_links cid kind id)
          (get_test_playbooks_configuration ids cid kind) = true.
Proof.
  intros Hk Hin. apply existsb_exists.
  destruct Hk as [-> | [-> | ->]].
  - exists (JDict [ ("integrations", JStr cid); ("playbookID", JStr id) ]).
    split.
    + rewrite configuration_integration.
      now apply (in_map (fun i => JDict [ ("integrations", JStr cid);
                                          ("playbookID", JStr i) ])).
    + unfold entry_links, entry_playbook_is, integrations_contain. simpl.
      now rewrite !String.eqb_refl.
  - exists (JDict [ ("playbookID", JStr id) ]). split.
    + rewrite configuration_plain by now left.
      now apply (in_map (fun i => JDict [ ("playbookID", JStr i) ])).
    + unfold entry_links, entry_playbook_is. simpl.
      now rewrite String.eqb_refl.
  - exists (JDict [ ("playbookID", JStr id) ]). split.
    + rewrite configuration_plain by now right.
      now apply (in_map (fun i => JDict [ ("playbookID", JStr i) ])).
    + unfold entry_links, entry_playbook_is. simpl.
      now rewrite String.eqb_refl.
Qed.

Lemma registered_after_extension
    (entries : list json) (cid kind : string) (declared : list string) :
  kind = "integration" \/ kind = "script" \/ kind = "playbook" ->
  findUnregistered
    (entries
     ++ get_test_playbooks_configuration
          (findUnregistered entries cid kind declared) cid kind)
    cid kind declared
  = [].
Proof.
  intros Hk. unfold findUnregistered at 1. apply filter_none.
  intros id Hin.
  destruct (is_sentinel id) eqn:Hs; [reflexivity |]. simpl.
  rewrite existsb_app.
  destruct (existsb (entry_links cid kind id) entries) eqn:He;
    [reflexivity |].
  simpl. rewrite built_entry_links; [reflexivity | exact Hk |].
  apply In_findUnregistered. repeat split; assumption.
Qed.

(** C6: on a registry whose [tests] is a sequence and for an integration,
    script or playbook, registering the ids that [findUnregistered] returns
    and comparing again, with the same content item and declared tests,
    yields the empty sequence; and after a confirmed [update_conf_json] a
    second comparison by [update_conf_json] on the file it left reports no
    id. *)
Theorem register_then_find_is_empty
    (conf : json) (entries : list json) (cid kind : string)
    (declared : list string) :
  getitem conf "tests" = Ok (JList entries) ->
  kind = "integration" \/ kind = "script" \/ kind = "playbook" ->
  (exists conf' entries',
     registerTests conf (findUnregistered entries cid kind declared) cid kind
     = Ok conf'
     /\ getitem conf' "tests" = Ok (JList entries')
     /\ findUnregistered entries' cid kind declared = [])
  /\ (forall (self : BaseUpdateYML) (user user' : string -> bool),
        data_get_tests (data self) = declared ->
        _get_file_id kind (data self) = cid ->
        assume_answer self = Some true
        \/ (assume_answer self = None
            /\ user (confirm_prompt
                       (String.concat LF
                          (findUnregistered entries cid kind declared)))
               = true) ->
        let w :=
          snd (run (update_conf_json CONF_PATH _get_file_id self kind)
                   (Some conf) user) in
        fst (run (update_conf_json_find CONF_PATH _get_file_id self kind)
                 (conf_file w) user') = Ok None
        \/ exists conf',
             fst (run (update_conf_json_find CONF_PATH _get_file_id self kind)
                      (conf_file w) user')
             = Ok (Some (conf', cid, []))).
Proof.
  intros Hg Hk.
  assert (Hclosed :
            findUnregistered
              (entries
               ++ get_test_playbooks_configuration
                    (findUnregistered entries cid kind declared) cid kind)
              cid kind declared = [])
    by now apply registered_after_extension.
  remember (findUnregistered entries cid kind declared) as ids eqn:Eids.
  destruct (registerTests_run conf entries ids cid kind Hg)
    as [d [Hconf [Hd Hreg]]].
  remember (JDict (assoc_set "tests"
                     (JList (entries
                             ++ get_test_playbooks_configuration
                                  ids cid kind)) d)) as conf1 eqn:Econf1.
  assert (Hg1 : getitem conf1 "tests"
                = Ok (JList (entries
                             ++ get_test_playbooks_configuration
                                  ids cid kind))).
  { rewrite Econf1. simpl. now rewrite assoc_get_set_same. }
  split.
  - exists conf1. eexists. split; [exact Hreg |]. split; [exact Hg1 |].
    exact Hclosed.
  - intros self user user' Hdecl Hcid Hyes w.
    assert (Hcases :
              (data_get_tests (data self) = []
               \/ existsb is_sentinel (data_get_tests (data self)) = true)
              \/ (data_get_tests (data self) <> []
                  /\ existsb is_sentinel (data_get_tests (data self))
                     = false)).
    { destruct (data_get_tests (data self)) as [| t ts];
        [left; left; reflexivity |].
      destruct (existsb is_sentinel (t :: ts));
        [left; right; reflexivity
        | right; split; [discriminate | reflexivity]]. }
    destruct Hcases as [Hguard | [Hne Hs']].
    { left. now rewrite find_guarded by exact Hguard. }
    pose proof (find_compared self kind conf entries user Hne Hs' Hg)
      as Hfind.
    rewrite Hcid, Hdecl, <- Eids in Hfind.
    assert (Hw : conf_file w = Some conf /\ ids = []
                 \/ conf_file w = Some conf1).
    { unfold w. rewrite (update_after_find _ _ _ _ _ _ _ _ Hfind).
      destruct ids as [| i ids'].
      - left. split; reflexivity.
      - right.
        set (w0 := {| conf_file := Some conf; answers := user;
                      trace := [Loaded conf] |}).
        assert (Hy : fst (should_edit_conf_json self (i :: ids') w0)
                     = Ok true).
        { destruct (should_edit_conf_json_run self (i :: ids') w0)
            as [w1 [-> _]]. cbn [fst]. f_equal.
          destruct Hyes as [-> | [-> Hu]]; [reflexivity | exact Hu]. }
        assert (Hids : i :: ids' <> []) by discriminate.
        destruct (apply_confirmed self kind conf conf1 cid (i :: ids') w0
                    Hids Hy Hreg) as [w' [Happly [Hfile _]]].
        rewrite Happly. exact Hfile. }
    right.
    destruct Hw as [[-> Hempty] | ->].
    + exists conf.
      rewrite (find_compared self kind conf entries user' Hne Hs' Hg).
      cbn [fst]. now rewrite Hcid, Hdecl, <- Eids, Hempty.
    + exists conf1.
      rewrite (find_compared self kind conf1 _ user' Hne Hs' Hg1).
      cbn [fst]. now rewrite Hcid, Hdecl, Hclosed.
Qed.

End Runs.

(** * The properties at concrete inputs *)

(** Spec scenario 6: deregistering [Slack] empties the registry's tests. *)
Example slack_deregistered :
  deregisterTests [slack_entry] "Slack" "integration" ["TPB1"] false = [].
Proof. reflexivity. Qed.

(** C1 as stated fails: with a registry without entries and the declared
    tests [No tests], [TPB2], the non-sentinel id [TPB2] has no matching
    entry, yet [update_conf_json] returns before loading the registry,
    reports nothing and, even with [assume_answer] set, writes nothing. *)
Lemma mixed_declared_tests_are_not_compared :
  let registry := JDict [ ("tests", JList []) ] in
  let self := formatter ["No tests"; "TPB2"] (Some true) in
  findUnregistered [] "Slack" "integration" ["No tests"; "TPB2"] = ["TPB2"]
  /\ run (update_conf_json_find "conf.json" slack_id self "integration")
         (Some registry) (always true)
     = (Ok None,
        {| conf_file := Some registry; answers := always true;
           trace := [] |})
  /\ fst (run (update_conf_json_find "conf.json" slack_id self "integration")
              (Some registry) (always true))
     <> Ok (Some (registry, "Slack", ["TPB2"]))
  /\ run (update_conf_json "conf.json" slack_id self "integration")
         (Some registry) (always true)
     = (Ok tt,
        {| conf_file := Some registry; answers := always true;
           trace := [] |}).
Proof.
  repeat split. discriminate.
Qed.

Lemma update_conf_json_find_guarded_subsequence_witness :
  fst (run (update_conf_json_find "conf.json" slack_id
              (formatter ["TPB1"; "TPB2"] None) "integration")
           (Some slack_registry) (always false))
  = Ok (Some (slack_registry, "Slack", ["TPB2"])).
Proof.
  apply (proj1 (update_conf_json_find_guarded_subsequence
                  "conf.json" slack_id (formatter ["TPB1"; "TPB2"] None)
                  "integration" slack_registry [slack_entry] (always false)
                  eq_refl)).
  - discriminate.
  - reflexivity.
Defined.

Lemma slack_scenario_integration_match_witness :
  ~ In "TPB1"
       (findUnregistered [slack_entry] "Slack" "integration"
          ["TPB1"; "TPB2"]).
Proof.
  apply (proj2 (proj2 (slack_scenario_integration_match "conf.json"))
           [slack_entry] "Slack" ["TPB1"; "TPB2"] "TPB1").
  - simpl. now left.
  - reflexivity.
  - exists slack_entry. split; [simpl; now left |].
    split; [reflexivity | left; reflexivity].
Defined.

(** C3 as stated fails: one sentinel among the declared tests sets the
    condition although the tests are not all sentinels; the entry of
    [Slack] then stays in the registry, where a deregistration with the
    condition unset removes it. *)
Lemma one_sentinel_sets_the_condition :
  let declared := ["No tests"; "TPB1"] in
  remove_no_test_playbooks_explicitly declared = true
  /\ forallb is_sentinel declared = false
  /\ run (remove_from_conf_json "conf.json" (formatter declared None)
            "integration" "Slack")
         (Some slack_registry) (always true)
     = (Ok tt,
        {| conf_file := Some slack_registry; answers := always true;
           trace := [Loaded slack_registry; Written slack_registry] |})
  /\ deregisterTests [slack_entry] "Slack" "integration" declared
       (forallb is_sentinel declared) = [].
Proof. repeat split. Qed.

Lemma remove_condition_is_any_and_identity_witness :
  run (remove_from_conf_json "conf.json"
         (formatter ["No tests (auto formatted)"] None)
         "integration" "Slack")
      (Some full_registry) (always true)
  = (Ok tt,
     {| conf_file := Some full_registry; answers := always true;
        trace := [Loaded full_registry; Written full_registry] |}).
Proof.
  apply (proj2 (remove_condition_is_any_and_identity
                  "conf.json" (formatter ["No tests (auto formatted)"] None)
                  "integration" "Slack" full_registry (JList [slack_entry])
                  (always true) eq_refl)).
  reflexivity.
Defined.

Lemma registry_without_tests_raises_witness :
  fst (run (update_conf_json "conf.json" slack_id
              (formatter ["TPB1"] (Some true)) "integration")
           (Some broken_registry) (always true))
  = Err (KeyError "tests")
  /\ fst (run (remove_from_conf_json "conf.json"
                 (formatter ["TPB1"] (Some true)) "integration" "Slack")
              (Some broken_registry) (always true))
     = Err (KeyError "tests").
Proof.
  pose proof (registry_without_tests_raises
                "conf.json" slack_id (formatter ["TPB1"] (Some true))
                "integration" "Slack" [ ("skipped_tests", JDict []) ]
                (always true) eq_refl) as [Hremove Hupdate].
  split.
  - apply Hupdate. discriminate.
  - apply Hremove.
Defined.

Lemma registerTests_appends_and_frames_witness :
  exists conf',
    registerTests full_registry ["TPB2"; "TPB3"] "Slack" "integration"
    = Ok conf'
    /\ getitem conf' "tests"
       = Ok (JList [ slack_entry;
                     JDict [ ("integrations", JStr "Slack");
                             ("playbookID", JStr "TPB2") ];
                     JDict [ ("integrations", JStr "Slack");
                             ("playbookID", JStr "TPB3") ] ])
    /\ dict_get conf' "skipped_tests" = dict_get full_registry "skipped_tests".
Proof.
  destruct (registerTests_appends_and_frames
              full_registry [slack_entry] ["TPB2"; "TPB3"] "Slack"
              "integration" eq_refl)
    as [conf' [Hreg [Htests [_ [_ [Hframe _]]]]]].
  exists conf'. split; [exact Hreg |]. split; [exact Htests |].
  apply Hframe. discriminate.
Defined.

Lemma register_then_find_is_empty_witness :
  exists conf' entries',
    registerTests slack_registry
      (findUnregistered [slack_entry] "Slack" "integration"
         ["TPB1"; "TPB2"])
      "Slack" "integration"
    = Ok conf'
    /\ getitem conf' "tests" = Ok (JList entries')
    /\ findUnregistered entries' "Slack" "integration" ["TPB1"; "TPB2"] = [].
Proof.
  apply (proj1 (register_then_find_is_empty
                  "conf.json" slack_id slack_registry [slack_entry]
                  "Slack" "integration" ["TPB1"; "TPB2"] eq_refl
                  (or_introl eq_refl))).
Defined.

Lemma get_test_playbooks_configuration_other_kind_witness :
  get_test_playbooks_configuration ["TPB1"; "TPB2"] "Slack" "layout" = [].
Proof.
  apply get_test_playbooks_configuration_other_kind; discriminate.
Defined.

Lemma declined_registration_writes_nothing_witness :
  let (r, w) :=
    run (update_conf_json "conf.json" slack_id
           (formatter ["TPB1"; "TPB2"] None) "integration")
        (Some slack_registry) (always false) in
  r = Ok tt /\ writes (trace w) = [] /\ conf_file w = Some slack_registry.
Proof.
  pose proof (declined_registration_writes_nothing
                "conf.json" slack_id (formatter ["TPB1"; "TPB2"] None)
                "integration" (Some slack_registry) (always false)
                slack_registry "Slack" ["TPB2"] eq_refl) as H.
  assert (Hne : ["TPB2"] <> []) by discriminate.
  specialize (H Hne (or_intror (conj eq_refl eq_refl))).
  destruct (run (update_conf_json "conf.json" slack_id
                   (formatter ["TPB1"; "TPB2"] None) "integration")
                (Some slack_registry) (always false)) as [r w].
  destruct H as [Hr [Hw [Hfile _]]]. repeat split; assumption.
Defined.

(** * Further properties of the conf.json methods *)

(** X1: the two "no tests" conditions agree on every list of declared tests:
    the second disjunct that [remove_from_conf_json] tests (lines 280-284)
    never changes the outcome of the single test of [update_conf_json]
    (lines 312-314). *)
Theorem no_test_conditions_agree (declared : list string) :
  remove_no_test_playbooks_explicitly declared
  = update_no_test_playbooks_explicitly declared.
Proof.
  rewrite remove_condition_any.
  symmetry. apply update_condition_any.
Qed.

Lemma condition_reads_lowered_ids (declared : list string) :
  update_no_test_playbooks_explicitly declared
  = existsb (str_in "no test") (map lower declared).
Proof.
  unfold update_no_test_playbooks_explicitly.
  rewrite any_filter.
  - induction declared as [| t ts IH]; [reflexivity |].
    simpl. now rewrite IH.
  - intros s H. destruct s; [discriminate | reflexivity].
Qed.

(** X2: the "no tests" conditions of [update_conf_json] and
    [remove_from_conf_json] do not depend on letter case: two lists of
    declared tests that agree once lowered give the same condition. *)
Theorem no_test_condition_ignores_case (declared declared' : list string) :
  map lower declared = map lower declared' ->
  update_no_test_playbooks_explicitly declared
  = update_no_test_playbooks_explicitly declared'
  /\ remove_no_test_playbooks_explicitly declared
     = remove_no_test_playbooks_explicitly declared'.
Proof.
  intros H.
  assert (Hu : update_no_test_playbooks_explicitly declared
               = update_no_test_playbooks_explicitly declared')
    by now rewrite !condition_reads_lowered_ids, H.
  split; [exact Hu |].
  now rewrite !remove_condition_any, <- !update_condition_any.
Qed.

Lemma no_test_condition_ignores_case_witness :
  update_no_test_playbooks_explicitly ["NO TESTS (auto formatted)"; "TPB1"]
  = update_no_test_playbooks_explicitly ["no tests (AUTO formatted)"; "tpb1"]
  /\ remove_no_test_playbooks_explicitly
       ["NO TESTS (auto formatted)"; "TPB1"]
     = remove_no_test_playbooks_explicitly
         ["no tests (AUTO formatted)"; "tpb1"].
Proof.
  apply no_test_condition_ignores_case. reflexivity.
Defined.

Lemma prompts_app (t u : list event) :
  prompts (t ++ u) = prompts t ++ prompts u.
Proof.
  induction t as [| e t IH]; [reflexivity |].
  destruct e; simpl; now rewrite IH.
Qed.

Lemma loads_app (t u : list event) : loads (t ++ u) = loads t ++ loads u.
Proof.
  induction t as [| e t IH]; [reflexivity |].
  destruct e; simpl; now rewrite IH.
Qed.

(** X3: the entries built for conf.json carry the test playbook ids back:
    for an integration, a playbook or a script there is one entry per id,
    its [playbookID] is that id, and it names the content item under
    [integrations] exactly when the item is an integration. *)
Theorem configuration_keeps_the_ids
    (ids : list string) (cid kind : string) :
  kind = "integration" \/ kind = "playbook" \/ kind = "script" ->
  let built := get_test_playbooks_configuration ids cid kind in
  length built = length ids
  /\ map (fun entry => dict_get entry "playbookID") built
     = map (fun id => Some (JStr id)) ids
  /\ forall entry,
       In entry built ->
       dict_get entry "integrations"
       = if kind =? "integration" then Some (JStr cid) else None.
Proof.
  intros Hk built. subst built.
  assert (Hmap : forall (f : string -> json) (g : json -> option json)
                        (v : option json),
             (forall id, g (f id) = v) ->
             forall entry, In entry (map f ids) -> g entry = v).
  { intros f g v Hf entry Hin. apply in_map_iff in Hin.
    destruct Hin as [id [<- _]]. apply Hf. }
  destruct Hk as [-> | [-> | ->]].
  - rewrite configuration_integration, length_map, map_map.
    repeat split. apply Hmap. reflexivity.
  - rewrite configuration_plain by (now right).
    rewrite length_map, map_map.
    repeat split. apply Hmap. reflexivity.
  - rewrite configuration_plain by (now left).
    rewrite length_map, map_map.
    repeat split. apply Hmap. reflexivity.
Qed.

Lemma configuration_keeps_the_ids_witness :
  map (fun entry => dict_get entry "playbookID")
      (get_test_playbooks_configuration ["TPB1"; "TPB2"] "Slack" "script")
  = [Some (JStr "TPB1"); Some (JStr "TPB2")].
Proof.
  apply (proj1 (proj2 (configuration_keeps_the_ids
                         ["TPB1"; "TPB2"] "Slack" "script"
                         (or_intror (or_intror eq_refl))))).
Defined.

(** Unfolds the monad and the methods, leaving their inputs folded. *)
Ltac crunch :=
  cbv beta iota zeta
      delta [run bind lift ret raise load_or_skip
             try_except_FileNotFoundError _load_conf_file get_file record
             logger_debug logger_info click_confirm _save_to_conf_json
             update_conf_json update_conf_json_find update_conf_json_apply
             should_edit_conf_json remove_from_conf_json
             conf_file answers trace fst snd app writes loads prompts
             length].

Ltac no_more_writes :=
  repeat split; try lia; try reflexivity; try (intros ? []).

Section Effects.

Variable CONF_PATH : string.
Variable _get_file_id : string -> yml_data -> string.


(** X5: one call of [update_conf_json] loads conf.json at most once, asks at
    most once and writes at most once; what it writes is the document it
    loaded with the value under [tests] replaced. *)
Theorem update_conf_json_effects_are_bounded
    (self : BaseUpdateYML) (file_type : string) (file : option json)
    (user : string -> bool) :
  let w :=
    snd (run (update_conf_json CONF_PATH _get_file_id self file_type)
             file user) in
  length (loads (trace w)) <= 1
  /\ length (prompts (trace w)) <= 1
  /\ length (writes (trace w)) <= 1
  /\ (forall written,
        In written (writes (trace w)) ->
        exists doc tests,
          file = Some doc
          /\ loads (trace w) = [doc]
          /\ setitem doc "tests" tests = Ok written).
Proof.
  assert (Hreg : forall doc ids cid kind written,
            registerTests doc ids cid kind = Ok written ->
            exists tests, setitem doc "tests" tests = Ok written).
  { intros doc ids cid kind written. unfold registerTests, extend_tests.
    destruct (getitem doc "tests") as [[| | | | entries |] | e];
      try discriminate.
    intros H. eexists. exact H. }
  crunch.
  destruct (data_get_tests (data self)) as [| t ts]; [no_more_writes |].
  destruct (update_no_test_playbooks_explicitly (t :: ts));
    [no_more_writes |].
  destruct file as [doc |]; [| no_more_writes].
  destruct (getitem doc "tests") as [v | e]; [| no_more_writes].
  destruct (get_not_registered_tests v _ _ _) as [[| i ids] | e'];
    [no_more_writes | | no_more_writes].
  destruct (assume_answer self) as [[|] |].
  - destruct (registerTests doc _ _ _) as [written' | e] eqn:E;
      [| no_more_writes].
    repeat split; try lia.
    intros written [<- | []]. destruct (Hreg _ _ _ _ _ E) as [tests Hs].
    exists doc, tests. repeat split. exact Hs.
  - no_more_writes.
  - destruct (user _); [| no_more_writes].
    destruct (registerTests doc _ _ _) as [written' | e] eqn:E;
      [| no_more_writes].
    repeat split; try lia.
    intros written [<- | []]. destruct (Hreg _ _ _ _ _ E) as [tests Hs].
    exists doc, tests. repeat split. exact Hs.
Qed.

End Effects.

Section Frames.

Variable CONF_PATH : string.
Variable _get_file_id : string -> yml_data -> string.

(** X6: on a registry whose [tests] is a sequence, [update_conf_json]
    returns normally whatever the formatter, the file type and the user's
    answer, and the file it leaves holds the old entries in front, in their
    order, possibly followed by new ones; every other top-level key keeps
    its value.  It never removes or reorders an entry. *)
Theorem update_conf_json_only_appends
    (self : BaseUpdateYML) (file_type : string) (conf : json)
    (entries : list json) (user : string -> bool) :
  getitem conf "tests" = Ok (JList entries) ->
  exists conf' added w,
    run (update_conf_json CONF_PATH _get_file_id self file_type)
        (Some conf) user = (Ok tt, w)
    /\ conf_file w = Some conf'
    /\ getitem conf' "tests" = Ok (JList (entries ++ added))
    /\ forall k, k <> "tests" -> dict_get conf' k = dict_get conf k.
Proof.
  intros Hg.
  assert (Hsame : forall w,
            conf_file w = Some conf ->
            exists conf' added,
              conf_file w = Some conf'
              /\ getitem conf' "tests" = Ok (JList (entries ++ added))
              /\ forall k, k <> "tests" -> dict_get conf' k = dict_get conf k).
  { intros w Hw. exists conf, []. rewrite app_nil_r. repeat split; auto. }
  assert (Hout : forall r w,
            r = Ok tt ->
            (exists conf' added,
               conf_file w = Some conf'
               /\ getitem conf' "tests" = Ok (JList (entries ++ added))
               /\ forall k, k <> "tests" ->
                            dict_get conf' k = dict_get conf k) ->
            exists conf' added w0,
              (r, w) = (Ok tt, w0)
              /\ conf_file w0 = Some conf'
              /\ getitem conf' "tests" = Ok (JList (entries ++ added))
              /\ forall k, k <> "tests" ->
                           dict_get conf' k = dict_get conf k).
  { intros r w -> [conf' [added H]]. exists conf', added, w.
    split; [reflexivity | exact H]. }
  crunch.
  destruct (data_get_tests (data self)) as [| t ts];
    [apply Hout; [reflexivity | now apply Hsame] |].
  destruct (update_no_test_playbooks_explicitly (t :: ts));
    [apply Hout; [reflexivity | now apply Hsame] |].
  rewrite Hg. cbv beta iota delta [get_not_registered_tests].
  destruct (findUnregistered entries _ _ _) as [| i ids];
    [apply Hout; [reflexivity | now apply Hsame] |].
  destruct (registerTests_run conf entries (i :: ids)
              (_get_file_id file_type (data self)) file_type Hg)
    as [d [Hconf [Hd Hreg]]].
  assert (Hnew :
            exists conf' added,
              Some (JDict
                      (assoc_set "tests"
                         (JList (entries
                                 ++ get_test_playbooks_configuration
                                      (i :: ids)
                                      (_get_file_id file_type (data self))
                                      file_type)) d)) = Some conf'
              /\ getitem conf' "tests" = Ok (JList (entries ++ added))
              /\ forall k, k <> "tests" ->
                           dict_get conf' k = dict_get conf k).
  { eexists. eexists. split; [reflexivity |]. split.
    - simpl. now rewrite assoc_get_set_same.
    - intros k Hk. rewrite Hconf. simpl. now apply assoc_get_set_other. }
  destruct (assume_answer self) as [[|] |].
  - rewrite Hreg. apply Hout; [reflexivity | exact Hnew].
  - apply Hout; [reflexivity | now apply Hsame].
  - destruct (user _).
    + rewrite Hreg. apply Hout; [reflexivity | exact Hnew].
    + apply Hout; [reflexivity | now apply Hsame].
Qed.

(** X7: for a file type other than integration, playbook and script a
    confirmed registration adds nothing: [update_conf_json] still rewrites
    conf.json and reports success, but the document written is the one that
    was loaded. *)
Theorem confirmed_update_of_other_kind_adds_nothing
    (self : BaseUpdateYML) (kind : string) (conf : json)
    (entries : list json) (cid : string) (ids : list string) (w : world) :
  kind <> "integration" ->
  kind <> "playbook" ->
  kind <> "script" ->
  getitem conf "tests" = Ok (JList entries) ->
  ids <> [] ->
  fst (should_edit_conf_json self ids w) = Ok true ->
  exists w',
    update_conf_json_apply self kind conf cid ids w = (Ok tt, w')
    /\ conf_file w' = Some conf
    /\ writes (trace w') = writes (trace w) ++ [conf]
    /\ In (Logged INFO "Added test playbooks to conf.json successfully")
          (trace w').
Proof.
  intros Hi Hp Hs Hg Hne Hyes.
  assert (Hnone : get_test_playbooks_configuration ids cid kind = []).
  { unfold get_test_playbooks_configuration, mem.
    apply String.eqb_neq in Hi, Hp, Hs. rewrite Hi. simpl.
    now rewrite Hp, Hs. }
  destruct (registerTests_run conf entries ids cid kind Hg)
    as [d [Hconf [Hd Hreg]]].
  rewrite Hnone, app_nil_r, (assoc_set_same_value _ _ _ Hd), <- Hconf
    in Hreg.
  destruct (apply_confirmed self kind conf conf cid ids w Hne Hyes Hreg)
    as [w' [Happly [Hfile Hwrites]]].
  exists w'. repeat split; try assumption.
  revert Happly. unfold update_conf_json_apply.
  destruct ids as [| i ids']; [congruence |].
  destruct (should_edit_conf_json_run self (i :: ids') w)
    as [w1 [Hrun _]].
  set (b := match assume_answer self with
            | Some b0 => b0
            | None => _
            end) in Hrun.
  rewrite Hrun in Hyes. cbn [fst] in Hyes.
  assert (Hb : b = true) by congruence.
  unfold bind at 1. rewrite Hrun, Hb.
  unfold bind at 1. rewrite Hreg.
  unfold lift, ret, bind, _save_to_conf_json, logger_info, record.
  cbn [conf_file answers trace].
  intros [= <-]. cbn [trace]. apply in_or_app. right. now left.
Qed.

(** X8: when the comparison finds every declared test registered,
    [update_conf_json] returns normally without asking and without
    writing; it only logs that nothing is unconfigured. *)
Theorem nothing_unregistered_means_no_write
    (self : BaseUpdateYML) (file_type : string) (file : option json)
    (user : string -> bool) (conf : json) (cid : string) :
  fst (run (update_conf_json_find CONF_PATH _get_file_id self file_type)
           file user)
  = Ok (Some (conf, cid, [])) ->
  run (update_conf_json CONF_PATH _get_file_id self file_type) file user
  = (Ok tt,
     {| conf_file := file; answers := user;
        trace := [Loaded conf;
                  Logged DEBUG "No unconfigured test playbooks"] |}).
Proof.
  intros Hfind.
  destruct (run (update_conf_json_find CONF_PATH _get_file_id self file_type)
                file user) as [r0 w0] eqn:E.
  cbn [fst] in Hfind. subst r0.
  destruct (find_some_inv _ _ _ _ _ _ _ _ _ _ E) as [-> ->].
  rewrite (update_after_find _ _ _ _ _ _ _ _ _ _ E). reflexivity.
Qed.

(** X9: when the registry has a [tests] key and the deletion helper returns,
    [remove_from_conf_json] writes conf.json exactly once, also when nothing
    was removed; the document written is the loaded one with only [tests]
    replaced: the other top-level keys keep their values and their order.
    When the helper raises, the exception reaches the caller and nothing is
    written. *)
Theorem remove_from_conf_json_frames
    (self : BaseUpdateYML) (file_type content_item_id : string)
    (conf tests : json) (user : string -> bool) :
  getitem conf "tests" = Ok tests ->
  let related := data_get_tests (data self) in
  let outcome :=
    search_and_delete_from_conf tests content_item_id file_type related
      (remove_no_test_playbooks_explicitly related) in
  let (r, w) :=
    run (remove_from_conf_json CONF_PATH self file_type content_item_id)
        (Some conf) user in
  match outcome with
  | Ok remaining =>
      r = Ok tt
      /\ exists conf' d d',
           conf_file w = Some conf'
           /\ writes (trace w) = [conf']
           /\ getitem conf' "tests" = Ok remaining
           /\ (forall k, k <> "tests" -> dict_get conf' k = dict_get conf k)
           /\ conf = JDict d /\ conf' = JDict d' /\ keys d' = keys d
  | Err e =>
      r = Err e /\ conf_file w = Some conf /\ writes (trace w) = []
  end.
Proof.
  intros Hg related outcome. subst outcome related. crunch. rewrite Hg.
  destruct (search_and_delete_from_conf tests _ _ _ _) as [remaining | e];
    [| repeat split].
  destruct (getitem_ok_inv _ _ _ Hg) as [d [-> Hd]].
  cbv beta iota delta [setitem]. split; [reflexivity |].
  exists (JDict (assoc_set "tests" remaining d)), d,
    (assoc_set "tests" remaining d).
  repeat split.
  - simpl. now rewrite assoc_get_set_same.
  - intros k Hk. simpl. now apply assoc_get_set_other.
  - now apply assoc_set_keys with tests.
Qed.

End Frames.

(** * Properties of [update_tests] *)

Lemma id_eqb_eq (a b : option string) : id_eqb a b = true <-> a = b.
Proof.
  destruct a as [x |], b as [y |]; simpl;
    try (split; [discriminate | intros [=]]); try tauto.
  rewrite String.eqb_eq. split; [now intros -> | now intros [= ->]].
Qed.

(** [commands[names.index(x)]] is the first command named [x]. *)
Lemma nth_index_is_find (x : option string) (commands : list command) :
  existsb (id_eqb x) (map command_id commands) = true ->
  nth_error commands (index_of x (map command_id commands))
  = find (fun c => id_eqb (command_id c) x) commands.
Proof.
  induction commands as [| c cs IH]; [discriminate |].
  simpl. destruct (id_eqb (command_id c) x) eqn:E; [reflexivity |].
  assert (E' : id_eqb x (command_id c) = false).
  { destruct (id_eqb x (command_id c)) eqn:E'; [| reflexivity].
    apply id_eqb_eq in E'. subst x.
    assert (id_eqb (command_id c) (command_id c) = true)
      by now apply id_eqb_eq.
    congruence. }
  rewrite E'. simpl. exact IH.
Qed.

Lemma find_named_some (x : option string) (commands : list command) :
  existsb (id_eqb x) (map command_id commands) = true ->
  exists c, find (fun c => id_eqb (command_id c) x) commands = Some c.
Proof.
  induction commands as [| c cs IH]; [discriminate |].
  simpl. destruct (id_eqb (command_id c) x) eqn:E.
  - intros _. now exists c.
  - intros H. apply orb_true_iff in H. destruct H as [H | H].
    + apply id_eqb_eq in H. subst x.
      assert (id_eqb (command_id c) (command_id c) = true)
        by now apply id_eqb_eq.
      congruence.
    + now apply IH.
Qed.

Lemma find_named_none (x : option string) (commands : list command) :
  existsb (id_eqb x) (map command_id commands) = false ->
  find (fun c => id_eqb (command_id c) x) commands = None.
Proof.
  induction commands as [| c cs IH]; [reflexivity |].
  simpl. intros H. apply orb_false_iff in H. destruct H as [H1 H2].
  destruct (id_eqb (command_id c) x) eqn:E; [| now apply IH].
  apply id_eqb_eq in E. subst x.
  assert (id_eqb (command_id c) (command_id c) = true) by now apply id_eqb_eq.
  congruence.
Qed.

(** The [continue] at lines 226-231 is taken unless the source is empty,
    the file has no id, or the source is the file's id. *)
Lemma continue_iff (source file_id : string) :
  truthy source && truthy file_id && negb (file_id =? source) = false
  <-> (source = EmptyString \/ file_id = EmptyString \/ file_id = source).
Proof.
  destruct source as [| a s].
  - split; [now left | reflexivity].
  - destruct file_id as [| b f].
    + split; [right; now left | reflexivity].
    + cbn [truthy andb]. rewrite negb_false_iff, String.eqb_eq.
      split; [intros H; right; now right |].
      intros [H | [H | H]]; [discriminate | discriminate | exact H].
Qed.

(** X10: the loop over a test playbook's commands attaches the playbook
    exactly when one of its commands (in any position) is not from another
    integration - its source is empty, or the file has no id, or the source
    is the file's id - and the first command of the file with the same id
    has the same source or none. *)
Theorem commands_loop_finds_a_shared_command
    (file_id : string) (commands tpb_commands : list command) :
  commands_loop file_id commands tpb_commands = true
  <-> exists tpb_command command,
        In tpb_command tpb_commands
        /\ (get_source tpb_command = EmptyString
            \/ file_id = EmptyString
            \/ file_id = get_source tpb_command)
        /\ find (fun c => id_eqb (command_id c) (command_id tpb_command))
                commands = Some command
        /\ (get_source command = get_source tpb_command
            \/ get_source command = EmptyString).
Proof.
  induction tpb_commands as [| tc rest IH].
  - simpl. split; [discriminate | intros [? [? [[] _]]]].
  - cbn [commands_loop].
    pose proof (continue_iff (get_source tc) file_id) as Hskip.
    assert (Hrest :
              (exists tpb_command command,
                 In tpb_command rest
                 /\ (get_source tpb_command = EmptyString
                     \/ file_id = EmptyString
                     \/ file_id = get_source tpb_command)
                 /\ find (fun c => id_eqb (command_id c)
                                          (command_id tpb_command))
                         commands = Some command
                 /\ (get_source command = get_source tpb_command
                     \/ get_source command = EmptyString))
              -> exists tpb_command command,
                   In tpb_command (tc :: rest)
                   /\ (get_source tpb_command = EmptyString
                       \/ file_id = EmptyString
                       \/ file_id = get_source tpb_command)
                   /\ find (fun c => id_eqb (command_id c)
                                            (command_id tpb_command))
                           commands = Some command
                   /\ (get_source command = get_source tpb_command
                       \/ get_source command = EmptyString)).
    { intros [x [c [Hin H]]]. exists x, c. split; [now right | exact H]. }
    destruct (truthy (get_source tc) && truthy file_id
              && negb (file_id =? get_source tc)) eqn:Eskip.
    + rewrite IH. split; [exact Hrest |].
      intros [x [c [[<- | Hin] [Hsrc H]]]].
      * apply Hskip in Hsrc. congruence.
      * exists x, c. split; [exact Hin | split; [exact Hsrc | exact H]].
    + destruct (existsb (id_eqb (command_id tc)) (map command_id commands))
        eqn:Emem.
      * rewrite (nth_index_is_find _ _ Emem).
        destruct (find_named_some _ _ Emem) as [c Hc]. rewrite Hc.
        destruct ((get_source c =? get_source tc)
                  || (get_source c =? EmptyString)) eqn:Esrc.
        -- split; [intros _ | reflexivity].
           exists tc, c. split; [now left |].
           split; [now apply Hskip |]. split; [exact Hc |].
           apply orb_true_iff in Esrc.
           destruct Esrc as [H | H]; apply String.eqb_eq in H; auto.
        -- rewrite IH. split; [exact Hrest |].
           intros [x [c' [[<- | Hin] [Hsrc [Hfind Hs]]]]].
           ++ rewrite Hc in Hfind. injection Hfind as <-.
              apply orb_false_iff in Esrc. destruct Esrc as [E1 E2].
              apply String.eqb_neq in E1, E2. tauto.
           ++ exists x, c'. repeat split; assumption.
      * rewrite IH. split; [exact Hrest |].
        intros [x [c' [[<- | Hin] [Hsrc [Hfind Hs]]]]].
        -- rewrite (find_named_none _ _ Emem) in Hfind. discriminate.
        -- exists x, c'. repeat split; assumption.
Qed.

Lemma scripts_loop_exists (scripts tpb_scripts : list string) :
  scripts_loop scripts tpb_scripts
  = existsb (fun s => mem s scripts) tpb_scripts.
Proof.
  induction tpb_scripts as [| s rest IH]; [reflexivity |].
  simpl. now destruct (mem s scripts).
Qed.

Lemma collect_from
    (file_id : string) (commands : list command) (scripts : list string)
    (files : list test_playbook) (acc : list string) :
  fold_left (collect_test_playbook file_id commands scripts) files acc
  = acc
    ++ map tpb_id
         (filter (fun tpb =>
                    match scripts, commands with
                    | [], [] => true
                    | _, _ =>
                        commands_loop file_id commands (tpb_commands tpb)
                        || scripts_loop scripts (tpb_scripts tpb)
                    end)
                 files).
Proof.
  revert acc. induction files as [| tpb files IH]; intros acc.
  - simpl. now rewrite app_nil_r.
  - cbn [fold_left filter]. rewrite IH.
    assert (Hone :
              collect_test_playbook file_id commands scripts acc tpb
              = if match scripts, commands with
                   | [], [] => true
                   | _, _ =>
                       commands_loop file_id commands (tpb_commands tpb)
                       || scripts_loop scripts (tpb_scripts tpb)
                   end
                then acc ++ [tpb_id tpb] else acc).
    { unfold collect_test_playbook.
      destruct scripts as [| s ss], commands as [| c cs];
        try reflexivity;
        destruct (commands_loop file_id _ (tpb_commands tpb));
        try reflexivity;
        destruct (scripts_loop _ (tpb_scripts tpb)); reflexivity. }
    rewrite Hone.
    destruct (match scripts, commands with
              | [], [] => true
              | _, _ =>
                  commands_loop file_id commands (tpb_commands tpb)
                  || scripts_loop scripts (tpb_scripts tpb)
              end).
    + cbn [map]. now rewrite <- app_assoc.
    + reflexivity.
Qed.

(** X11: the ids collected from the TestPlaybooks directory are the ids of
    the test playbooks that share a command or a script with the file, in
    directory order and once per playbook file; a file with neither
    commands nor scripts takes every test playbook. *)
Theorem collected_ids_are_the_matching_playbooks
    (file_id : string) (commands : list command) (scripts : list string)
    (files : list test_playbook) :
  collect_test_playbooks file_id commands scripts files
  = map tpb_id
      (filter (fun tpb =>
                 match scripts, commands with
                 | [], [] => true
                 | _, _ =>
                     commands_loop file_id commands (tpb_commands tpb)
                     || scripts_loop scripts (tpb_scripts tpb)
                 end)
              files)
  /\ length (collect_test_playbooks file_id commands scripts files)
     <= length files
  /\ collect_test_playbooks file_id [] [] files = map tpb_id files.
Proof.
  unfold collect_test_playbooks. rewrite !collect_from. cbn [app].
  split; [reflexivity |]. split.
  - rewrite length_map. apply filter_length_le.
  - f_equal. induction files as [| f fs IH]; [reflexivity |].
    simpl. now rewrite IH.
Qed.

(** X12: a test playbook whose commands all come from other integrations
    (each has a non-empty source that is not the file's id) is never
    attached through its commands, whatever the commands are called. *)
Theorem foreign_commands_never_match
    (file_id : string) (commands tpb_commands : list command) :
  file_id <> EmptyString ->
  (forall tpb_command,
     In tpb_command tpb_commands ->
     get_source tpb_command <> EmptyString
     /\ get_source tpb_command <> file_id) ->
  commands_loop file_id commands tpb_commands = false.
Proof.
  intros Hid Hforeign.
  induction tpb_commands as [| tc rest IH]; [reflexivity |].
  cbn [commands_loop].
  destruct (Hforeign tc (or_introl eq_refl)) as [Hs Hf].
  assert (E : truthy (get_source tc) && truthy file_id
              && negb (file_id =? get_source tc) = true).
  { destruct (truthy (get_source tc) && truthy file_id
              && negb (file_id =? get_source tc)) eqn:E; [reflexivity |].
    apply continue_iff in E. destruct E as [E | [E | E]]; congruence. }
  rewrite E. apply IH. intros x Hx. apply Hforeign. now right.
Qed.

Section Tests.

Variable CONF_PATH : string.
Variable _get_file_id : string -> yml_data -> string.



End Tests.

(** * Properties of [update_deprecate] *)

Lemma assoc_set_twice (k : string) (v v' : json) (d : dict) :
  assoc_set k v (assoc_set k v' d) = assoc_set k v d.
Proof.
  induction d as [| [k0 v0] d IH]; simpl.
  - now rewrite String.eqb_refl.
  - destruct (k0 =? k) eqn:E; simpl; rewrite E; [reflexivity |].
    now rewrite IH.
Qed.

Lemma set_key_same (d : yml_data) (k : string) (v : json) :
  assoc_get k (other_keys d) = Some v -> set_key d k v = d.
Proof.
  intros H. destruct d as [t o]. unfold set_key. simpl in *.
  now rewrite (assoc_set_same_value _ _ _ H).
Qed.

Lemma get_set_key_same (d : yml_data) (k : string) (v : json) :
  assoc_get k (other_keys (set_key d k v)) = Some v.
Proof. apply assoc_get_set_same. Qed.

Lemma get_set_key_other (d : yml_data) (k k' : string) (v : json) :
  k' <> k ->
  assoc_get k' (other_keys (set_key d k v)) = assoc_get k' (other_keys d).
Proof. intros H. now apply assoc_get_set_other. Qed.

Lemma ends_with_app (suffix s t : string) :
  ends_with suffix t = true -> ends_with suffix (s ++ t) = true.
Proof.
  intros H. induction s as [| c s IH]; [exact H |].
  cbn [append ends_with]. rewrite IH. apply orb_true_r.
Qed.

Lemma deprecate_commands_settles (commands commands' : list json) :
  deprecate_commands commands = (commands', None) ->
  deprecate_commands commands' = (commands', None).
Proof.
  revert commands'. induction commands as [| c cs IH]; intros commands'.
  - simpl. now intros [= <-].
  - destruct c; simpl; try discriminate.
    destruct (deprecate_commands cs) as [rest' stopped].
    intros [= <- ->]. simpl. rewrite (IH rest' eq_refl).
    now rewrite assoc_set_twice.
Qed.

Lemma deprecate_display_settles (d d3 : yml_data) :
  deprecate_display d = (d3, None) ->
  display_settled d3
  /\ tests_key d3 = tests_key d
  /\ forall k, k <> "display" ->
               assoc_get k (other_keys d3) = assoc_get k (other_keys d).
Proof.
  unfold deprecate_display, display_settled.
  destruct (assoc_get "display" (other_keys d)) as [[| | | s | |] |] eqn:E;
    try discriminate.
  - destruct (ends_with "(Deprecated)" s) eqn:Es; intros [= <-].
    + rewrite E. repeat split. exact Es.
    + rewrite get_set_key_same. repeat split.
      * now apply ends_with_app.
      * intros k Hk. now apply get_set_key_other.
  - intros [= <-]. rewrite E. repeat split.
Qed.

Lemma settled_display_stays (d : yml_data) :
  display_settled d -> deprecate_display d = (d, None).
Proof.
  unfold deprecate_display, display_settled.
  destruct (assoc_get "display" (other_keys d)) as [[| | | s | |] |];
    try contradiction; try reflexivity.
  now intros ->.
Qed.

Lemma deprecate_script_commands_settles (d d4 : yml_data) :
  deprecate_script_commands d = (d4, None) ->
  commands_settled d4
  /\ tests_key d4 = tests_key d
  /\ forall k, k <> "script" ->
               assoc_get k (other_keys d4) = assoc_get k (other_keys d).
Proof.
  unfold deprecate_script_commands, commands_settled.
  destruct (assoc_get "script" (other_keys d)) as [[| | | | | script] |]
    eqn:E; try discriminate.
  - destruct (assoc_get "commands" script)
      as [[| | | [| ? ?] | cs | [| ? ?]] |] eqn:Ec; try discriminate.
    + intros [= <-]. rewrite E, Ec. repeat split.
    + destruct (deprecate_commands cs) as [cs' stopped] eqn:Ed.
      intros [= <- ->]. rewrite get_set_key_same, assoc_get_set_same.
      repeat split.
      * now apply deprecate_commands_settles with cs.
      * intros k Hk. now apply get_set_key_other.
    + intros [= <-]. rewrite E, Ec. repeat split.
    + intros [= <-]. rewrite E, Ec. repeat split.
  - intros [= <-]. rewrite E. repeat split.
Qed.

Lemma settled_commands_stay (d : yml_data) :
  commands_settled d -> deprecate_script_commands d = (d, None).
Proof.
  unfold deprecate_script_commands, commands_settled.
  destruct (assoc_get "script" (other_keys d)) as [[| | | | | script] |]
    eqn:E; try contradiction; try reflexivity.
  destruct (assoc_get "commands" script)
    as [[| | | [| ? ?] | cs | [| ? ?]] |] eqn:Ec;
    try contradiction; try reflexivity.
  intros ->. rewrite (assoc_set_same_value _ _ _ Ec).
  now rewrite (set_key_same _ _ _ E).
Qed.

Lemma display_settled_ext (x y : yml_data) :
  assoc_get "display" (other_keys x) = assoc_get "display" (other_keys y) ->
  display_settled y -> display_settled x.
Proof. unfold display_settled. now intros ->. Qed.

Lemma commands_settled_ext (x y : yml_data) :
  assoc_get "script" (other_keys x) = assoc_get "script" (other_keys y) ->
  commands_settled y -> commands_settled x.
Proof. unfold commands_settled. now intros ->. Qed.

Lemma set_tests_same (d : yml_data) (tests : list string) :
  tests_key d = Some tests -> set_tests d tests = d.
Proof. destruct d as [t o]. simpl. intros ->. reflexivity. Qed.

Section Deprecation.

Variable INTEGRATION PLAYBOOK SCRIPT NO_TESTS_DEPRECATED : string.

(** The first two assignments of [update_deprecate], lines 367-370. *)
Lemma deprecated_and_tests
    (d : yml_data) (file_type : option string) :
  let d2 :=
    if truthy_tests (set_key d "deprecated" (JBool true))
       || is_type file_type INTEGRATION
       || is_type file_type PLAYBOOK
       || is_type file_type SCRIPT
    then set_tests (set_key d "deprecated" (JBool true))
                   [NO_TESTS_DEPRECATED]
    else set_key d "deprecated" (JBool true) in
  assoc_get "deprecated" (other_keys d2) = Some (JBool true)
  /\ (forall k, k <> "deprecated" ->
                assoc_get k (other_keys d2) = assoc_get k (other_keys d))
  /\ data_get_tests d2
     = (if truthy_tests d
           || is_type file_type INTEGRATION
           || is_type file_type PLAYBOOK
           || is_type file_type SCRIPT
        then [NO_TESTS_DEPRECATED] else data_get_tests d)
  /\ (truthy_tests d
      || is_type file_type INTEGRATION
      || is_type file_type PLAYBOOK
      || is_type file_type SCRIPT = true ->
      tests_key d2 = Some [NO_TESTS_DEPRECATED])
  /\ (truthy_tests d
      || is_type file_type INTEGRATION
      || is_type file_type PLAYBOOK
      || is_type file_type SCRIPT = false ->
      tests_key d2 = tests_key d).
Proof.
  intros d2. subst d2.
  change (truthy_tests (set_key d "deprecated" (JBool true)))
    with (truthy_tests d).
  destruct (truthy_tests d || is_type file_type INTEGRATION
            || is_type file_type PLAYBOOK || is_type file_type SCRIPT).
  - cbn [set_tests other_keys tests_key data_get_tests].
    repeat split; try discriminate.
    + apply get_set_key_same.
    + intros k Hk. now apply (get_set_key_other d).
  - repeat split; try discriminate.
    + apply get_set_key_same.
    + intros k Hk. now apply get_set_key_other.
Qed.

(** X15: for every file type other than [INTEGRATION], [update_deprecate]
    returns normally whatever the YAML holds.  It leaves [deprecated] true
    and the note under [description] for a playbook and under [comment]
    otherwise; the tests become the single [NO_TESTS_DEPRECATED] when the
    file declared tests or is a playbook or a script, and stay as they were
    otherwise; no other key changes. *)
Theorem update_deprecate_of_other_types
    (d : yml_data) (file_type : option string) (user_response : string) :
  is_type file_type INTEGRATION = false ->
  let field :=
    if is_type file_type PLAYBOOK then "description" else "comment" in
  exists d',
    update_deprecate INTEGRATION PLAYBOOK SCRIPT NO_TESTS_DEPRECATED
      d file_type user_response = (Ok tt, d')
    /\ assoc_get "deprecated" (other_keys d') = Some (JBool true)
    /\ assoc_get field (other_keys d')
       = Some (JStr (deprecation_note user_response))
    /\ data_get_tests d'
       = (if truthy_tests d || is_type file_type PLAYBOOK
             || is_type file_type SCRIPT
          then [NO_TESTS_DEPRECATED] else data_get_tests d)
    /\ forall k, k <> "deprecated" -> k <> field ->
                 assoc_get k (other_keys d') = assoc_get k (other_keys d).
Proof.
  intros Hi field.
  pose proof (deprecated_and_tests d file_type) as H. cbv zeta in H.
  unfold update_deprecate. cbv zeta.
  set (d2 := if truthy_tests (set_key d "deprecated" (JBool true))
                || is_type file_type INTEGRATION
                || is_type file_type PLAYBOOK
                || is_type file_type SCRIPT
             then _ else _) in *.
  destruct H as [Hdep [Hframe [Htests _]]].
  rewrite Hi in *. rewrite orb_false_r in Htests. cbn [orb].
  subst field.
  destruct (is_type file_type PLAYBOOK) eqn:Hp.
  - eexists. split; [reflexivity |].
    rewrite get_set_key_same, get_set_key_other by discriminate.
    repeat split; try assumption.
    intros k Hk Hf. rewrite get_set_key_other by assumption. now apply Hframe.
  - eexists. split; [reflexivity |].
    rewrite get_set_key_same, get_set_key_other by discriminate.
    repeat split; try assumption.
    intros k Hk Hf. rewrite get_set_key_other by assumption. now apply Hframe.
Qed.

(** X16: [update_deprecate] is idempotent: after a call that returned, a
    second call with the same file type and the same reply returns as well
    and leaves the data as the first call left it.  In particular the
    display name of an integration gets " (Deprecated)" once only. *)
Theorem update_deprecate_is_idempotent
    (d d' : yml_data) (file_type : option string) (user_response : string) :
  update_deprecate INTEGRATION PLAYBOOK SCRIPT NO_TESTS_DEPRECATED
    d file_type user_response = (Ok tt, d') ->
  update_deprecate INTEGRATION PLAYBOOK SCRIPT NO_TESTS_DEPRECATED
    d' file_type user_response = (Ok tt, d')
  /\ (is_type file_type INTEGRATION = true ->
      display_settled d' /\ commands_settled d').
Proof.
  intros Hfirst.
  pose proof (deprecated_and_tests d file_type) as H. cbv zeta in H.
  unfold update_deprecate in Hfirst. cbv zeta in Hfirst.
  set (d2 := if truthy_tests (set_key d "deprecated" (JBool true))
                || is_type file_type INTEGRATION
                || is_type file_type PLAYBOOK
                || is_type file_type SCRIPT
             then _ else _) in *.
  destruct H as [Hdep [_ [_ [Hyes Hno]]]].
  set (c := truthy_tests d || is_type file_type INTEGRATION
            || is_type file_type PLAYBOOK || is_type file_type SCRIPT) in *.
  (* What the second call needs to know about the data it starts from. *)
  assert (Hsecond :
            forall field,
              assoc_get "deprecated" (other_keys d') = Some (JBool true) ->
              tests_key d' = tests_key d2 ->
              assoc_get field (other_keys d')
              = Some (JStr (deprecation_note user_response)) ->
              let e1 := set_key d' "deprecated" (JBool true) in
              (if truthy_tests e1
                  || is_type file_type INTEGRATION
                  || is_type file_type PLAYBOOK
                  || is_type file_type SCRIPT
               then set_tests e1 [NO_TESTS_DEPRECATED] else e1) = d'
              /\ set_key d' field (JStr (deprecation_note user_response))
                 = d').
  { intros field Hd Ht Hf e1. subst e1.
    rewrite (set_key_same _ _ _ Hd). split; [| now apply set_key_same].
    assert (Htruthy : truthy_tests d' = true -> c = true).
    { unfold truthy_tests, data_get_tests. rewrite Ht.
      destruct c eqn:Ec; [reflexivity |].
      rewrite (Hno eq_refl). intros Hd'. unfold c in Ec.
      apply orb_false_iff in Ec. destruct Ec as [Ec _].
      apply orb_false_iff in Ec. destruct Ec as [Ec _].
      apply orb_false_iff in Ec. destruct Ec as [Ec _].
      unfold truthy_tests, data_get_tests in Ec. congruence. }
    destruct c eqn:Ec.
    - assert (Hd' : tests_key d' = Some [NO_TESTS_DEPRECATED])
        by (rewrite Ht; now apply Hyes).
      assert (Ht' : truthy_tests d' = true)
        by (unfold truthy_tests, data_get_tests; now rewrite Hd').
      rewrite Ht'. cbn [orb]. now apply set_tests_same.
    - unfold c in Ec.
      apply orb_false_iff in Ec. destruct Ec as [Ec Es].
      apply orb_false_iff in Ec. destruct Ec as [Ec Ep].
      apply orb_false_iff in Ec. destruct Ec as [_ Ei].
      rewrite Ei, Ep, Es.
      destruct (truthy_tests d') eqn:Et'; [| reflexivity].
      specialize (Htruthy eq_refl). discriminate. }
  unfold update_deprecate. cbv zeta.
  destruct (is_type file_type INTEGRATION) eqn:Hi.
  - cbn [orb] in Hfirst |- *.
    destruct (deprecate_display d2) as [d3 [e |]] eqn:Hdisplay;
      [discriminate |].
    destruct (deprecate_script_commands d3) as [d4 [e |]] eqn:Hcommands;
      [discriminate |].
    injection Hfirst as Hd'.
    destruct (deprecate_display_settles _ _ Hdisplay) as [Hs3 [Ht3 Hf3]].
    destruct (deprecate_script_commands_settles _ _ Hcommands)
      as [Hs4 [Ht4 Hf4]].
    assert (Hdisplay' : display_settled d').
    { apply display_settled_ext with d3; [| exact Hs3].
      rewrite <- Hd', get_set_key_other by discriminate.
      now apply Hf4. }
    assert (Hcommands' : commands_settled d').
    { apply commands_settled_ext with d4; [| exact Hs4].
      now rewrite <- Hd', get_set_key_other by discriminate. }
    destruct (Hsecond "description") as [Hstart Hend].
    + rewrite <- Hd', get_set_key_other, Hf4, Hf3 by discriminate.
      exact Hdep.
    + rewrite <- Hd'. cbn [set_key tests_key]. now rewrite Ht4, Ht3.
    + rewrite <- Hd'. apply get_set_key_same.
    + cbv zeta in Hstart. rewrite Hstart.
      rewrite (settled_display_stays _ Hdisplay').
      rewrite (settled_commands_stay _ Hcommands').
      rewrite Hend. split; [reflexivity |]. intros _. now split.
  - cbn [orb] in Hfirst |- *.
    destruct (is_type file_type PLAYBOOK) eqn:Hp.
    + injection Hfirst as Hd'.
      destruct (Hsecond "description") as [Hstart Hend].
      * rewrite <- Hd', get_set_key_other by discriminate. exact Hdep.
      * now rewrite <- Hd'.
      * rewrite <- Hd'. apply get_set_key_same.
      * cbv zeta in Hstart.
        rewrite Hstart, Hend. split; [reflexivity | discriminate].
    + injection Hfirst as Hd'.
      destruct (Hsecond "comment") as [Hstart Hend].
      * rewrite <- Hd', get_set_key_other by discriminate. exact Hdep.
      * now rewrite <- Hd'.
      * rewrite <- Hd'. apply get_set_key_same.
      * cbv zeta in Hstart.
        rewrite Hstart, Hend. split; [reflexivity | discriminate].
Qed.

(** X17: when [NO_TESTS_DEPRECATED] is itself a "no tests" sentinel, a file
    deprecated by [update_deprecate] that declared tests, or is an
    integration, a playbook or a script, is out of reach of the registration:
    on the data it leaves [update_conf_json] returns at once for every file
    type, without reading or writing conf.json, and the condition of
    [remove_from_conf_json] holds. *)
Theorem deprecated_file_is_not_registered
    (CONF_PATH : string) (_get_file_id : string -> yml_data -> string)
    (d d' : yml_data) (file_type : option string) (user_response : string) :
  is_sentinel NO_TESTS_DEPRECATED = true ->
  update_deprecate INTEGRATION PLAYBOOK SCRIPT NO_TESTS_DEPRECATED
    d file_type user_response = (Ok tt, d') ->
  truthy_tests d
  || is_type file_type INTEGRATION
  || is_type file_type PLAYBOOK
  || is_type file_type SCRIPT = true ->
  data_get_tests d' = [NO_TESTS_DEPRECATED]
  /\ remove_no_test_playbooks_explicitly (data_get_tests d') = true
  /\ forall answer file_type' file user,
       run (update_conf_json CONF_PATH _get_file_id
              {| data := d'; assume_answer := answer |} file_type')
           file user
       = (Ok tt, {| conf_file := file; answers := user; trace := [] |}).
Proof.
  intros Hsentinel Hfirst Hc.
  pose proof (deprecated_and_tests d file_type) as H. cbv zeta in H.
  unfold update_deprecate in Hfirst. cbv zeta in Hfirst.
  set (d2 := if truthy_tests (set_key d "deprecated" (JBool true))
                || is_type file_type INTEGRATION
                || is_type file_type PLAYBOOK
                || is_type file_type SCRIPT
             then _ else _) in *.
  destruct H as [_ [_ [_ [Hyes _]]]]. specialize (Hyes Hc).
  assert (Htests : tests_key d' = Some [NO_TESTS_DEPRECATED]).
  { destruct (is_type file_type INTEGRATION || is_type file_type PLAYBOOK).
    - destruct (is_type file_type INTEGRATION).
      + destruct (deprecate_display d2) as [d3 [e |]] eqn:Hdisplay;
          [discriminate |].
        destruct (deprecate_script_commands d3) as [d4 [e |]] eqn:Hcommands;
          [discriminate |].
        injection Hfirst as <-.
        destruct (deprecate_display_settles _ _ Hdisplay) as [_ [Ht3 _]].
        destruct (deprecate_script_commands_settles _ _ Hcommands)
          as [_ [Ht4 _]].
        cbn [set_key tests_key]. now rewrite Ht4, Ht3.
      + injection Hfirst as <-. exact Hyes.
    - injection Hfirst as <-. exact Hyes. }
  assert (Hd : data_get_tests d' = [NO_TESTS_DEPRECATED])
    by (unfold data_get_tests; now rewrite Htests).
  split; [exact Hd |]. split.
  - rewrite Hd, remove_condition_any. simpl. now rewrite Hsentinel.
  - intros answer file_type' file user.
    unfold update_conf_json, update_conf_json_find, run, bind.
    cbn [data]. rewrite Hd, update_condition_any. simpl.
    now rewrite Hsentinel.
Qed.

End Deprecation.

(** * Properties of the smaller YAML updates *)

(** X18: [copy_tests_from_old_file] never replaces tests the file declares
    and changes no other key; the file ends with tests exactly when it or
    its old version declared some, taking the old ones only when it had
    none; a second call changes nothing. *)
Theorem copy_tests_keeps_declared_tests
    (d : yml_data) (old_file : option yml_data) :
  let d' := copy_tests_from_old_file d old_file in
  other_keys d' = other_keys d
  /\ (truthy_tests d = true -> d' = d)
  /\ (truthy_tests d = false ->
      forall old, old_file = Some old -> truthy_tests old = true ->
                  tests_key d' = tests_key old)
  /\ truthy_tests d'
     = truthy_tests d
       || match old_file with
          | Some old => truthy_tests old
          | None => false
          end
  /\ copy_tests_from_old_file d' old_file = d'.
Proof.
  destruct d as [[[| t ts] |] keys0];
    destruct old_file as [[[[| t' ts'] |] [| key' keys']] |];
    cbv zeta; cbn; repeat split; intros;
    repeat match goal with
           | H : Some _ = Some _ |- _ => injection H as <-
           end;
    cbn in *; congruence.
Qed.

Lemma assoc_get_pop_same (k : string) (d : dict) :
  assoc_get k (assoc_pop k d) = None.
Proof.
  induction d as [| [k' v] d IH]; [reflexivity |].
  simpl. destruct (k' =? k) eqn:E; [exact IH |]. simpl. now rewrite E.
Qed.

Lemma assoc_get_pop_other (k k' : string) (d : dict) :
  k' <> k -> assoc_get k' (assoc_pop k d) = assoc_get k' d.
Proof.
  intros Hne. induction d as [| [k0 v] d IH]; [reflexivity |].
  simpl. destruct (k0 =? k) eqn:E.
  - apply String.eqb_eq in E. subst k0.
    destruct (k =? k') eqn:E'; [| exact IH].
    apply String.eqb_eq in E'. congruence.
  - simpl. now rewrite IH.
Qed.

(** Without a truthy top-level tag one call settles the data. *)
Lemma nativeimage_settles_below (d : yml_data) :
  truthy_at "nativeimage" (other_keys d) = false ->
  truthy_at "nativeimage"
    (other_keys (remove_nativeimage_tag_if_exist d)) = false
  /\ remove_nativeimage_tag_if_exist (remove_nativeimage_tag_if_exist d)
     = remove_nativeimage_tag_if_exist d.
Proof.
  intros Htop.
  assert (Hstay : forall x,
            truthy_at "nativeimage" (other_keys x) = false ->
            match assoc_get "script" (other_keys x) with
            | Some (JDict s) => truthy_at "nativeimage" s = false
            | _ => True
            end ->
            remove_nativeimage_tag_if_exist x = x).
  { intros x Hx Hs. unfold remove_nativeimage_tag_if_exist. rewrite Hx.
    destruct (assoc_get "script" (other_keys x)) as [[| | | | | s] |];
      try reflexivity.
    now rewrite Hs, andb_false_r. }
  assert (Hd : remove_nativeimage_tag_if_exist d
               = match assoc_get "script" (other_keys d) with
                 | Some (JDict s) =>
                     if truthy_json (JDict s) && truthy_at "nativeimage" s
                     then set_key d "script"
                            (JDict (assoc_pop "nativeimage" s))
                     else d
                 | _ => d
                 end).
  { unfold remove_nativeimage_tag_if_exist. now rewrite Htop. }
  destruct (assoc_get "script" (other_keys d)) as [[| | | | | s] |] eqn:Es;
    try (rewrite Hd; split;
         [exact Htop | apply Hstay; [exact Htop | now rewrite Es]]).
  destruct (truthy_json (JDict s) && truthy_at "nativeimage" s) eqn:E.
  - assert (Htop' : truthy_at "nativeimage"
                      (other_keys
                         (set_key d "script"
                            (JDict (assoc_pop "nativeimage" s)))) = false).
    { unfold truthy_at in *.
      now rewrite get_set_key_other by discriminate. }
    rewrite Hd. split; [exact Htop' |]. apply Hstay; [exact Htop' |].
    rewrite get_set_key_same. unfold truthy_at.
    now rewrite assoc_get_pop_same.
  - rewrite Hd. split; [exact Htop |]. unfold remove_nativeimage_tag_if_exist.
    now rewrite Htop, Es, E.
Qed.

(** X19: [remove_nativeimage_tag_if_exist] never touches the tests or a
    top-level key other than [nativeimage] and [script], and leaves no
    truthy top-level [nativeimage].  One call removes one tag only: when
    both the top level and the script section carry one, the script's
    survives; after two calls a further call changes nothing. *)
Theorem nativeimage_is_removed_in_two_calls (d : yml_data) :
  let once := remove_nativeimage_tag_if_exist d in
  let twice := remove_nativeimage_tag_if_exist once in
  tests_key once = tests_key d
  /\ (forall k, k <> "nativeimage" -> k <> "script" ->
                assoc_get k (other_keys once) = assoc_get k (other_keys d))
  /\ truthy_at "nativeimage" (other_keys once) = false
  /\ (truthy_at "nativeimage" (other_keys d) = true ->
      assoc_get "script" (other_keys once)
      = assoc_get "script" (other_keys d))
  /\ remove_nativeimage_tag_if_exist twice = twice.
Proof.
  intros once twice. subst twice once.
  destruct (truthy_at "nativeimage" (other_keys d)) eqn:Htop.
  - assert (Honce : remove_nativeimage_tag_if_exist d
                    = {| tests_key := tests_key d;
                         other_keys := assoc_pop "nativeimage"
                                         (other_keys d) |}).
    { unfold remove_nativeimage_tag_if_exist. now rewrite Htop. }
    rewrite Honce. cbn [tests_key other_keys].
    assert (Hgone : truthy_at "nativeimage"
                      (assoc_pop "nativeimage" (other_keys d)) = false).
    { unfold truthy_at. now rewrite assoc_get_pop_same. }
    split; [reflexivity |]. split; [| split; [| split]].
    + intros k Hk _. now apply assoc_get_pop_other.
    + exact Hgone.
    + intros _. now apply assoc_get_pop_other.
    + now apply (nativeimage_settles_below
                   {| tests_key := tests_key d;
                      other_keys := assoc_pop "nativeimage"
                                      (other_keys d) |}).
  - destruct (nativeimage_settles_below d Htop) as [Hgone Hfix].
    rewrite !Hfix. split; [| split; [| split; [| split]]];
      try exact Hgone; try discriminate; try reflexivity.
    + unfold remove_nativeimage_tag_if_exist. rewrite Htop.
      destruct (assoc_get "script" (other_keys d)) as [[| | | | | s] |];
        try reflexivity.
      now destruct (truthy_json (JDict s) && truthy_at "nativeimage" s).
    + intros k Hk Hs. unfold remove_nativeimage_tag_if_exist. rewrite Htop.
      destruct (assoc_get "script" (other_keys d)) as [[| | | | | s] |];
        try reflexivity.
      destruct (truthy_json (JDict s) && truthy_at "nativeimage" s);
        [| reflexivity].
      now apply get_set_key_other.
Qed.

(** * Properties of the fixture name and of the end-to-end helpers *)

Lemma rstrip_dash_dashes (n : nat) : rstrip_dash (dashes n) = EmptyString.
Proof. induction n as [| n IH]; [reflexivity |]. simpl. now rewrite IH. Qed.

Lemma rstrip_dash_app_dashes (s : string) (n : nat) :
  rstrip_dash (s ++ dashes n) = rstrip_dash s.
Proof.
  induction s as [| c s IH]; [apply rstrip_dash_dashes |].
  cbn [append rstrip_dash]. now rewrite IH.
Qed.

Lemma rstrip_dash_no_trailing_dash (s : string) :
  ends_with "-" (rstrip_dash s) = false.
Proof.
  induction s as [| c s IH]; [reflexivity |].
  cbn [rstrip_dash]. destruct (rstrip_dash s) as [| k kept] eqn:E.
  - destruct (c =? "-")%char eqn:Ec; [reflexivity |].
    cbn [ends_with]. rewrite orb_false_r. cbn [String.eqb]. now rewrite Ec.
  - cbn [ends_with] in *. rewrite IH, orb_false_r.
    cbn [String.eqb]. destruct (c =? "-")%char; [| reflexivity].
    reflexivity.
Qed.

Lemma rstrip_dash_splits (s : string) :
  exists n, s = (rstrip_dash s ++ dashes n)%string.
Proof.
  induction s as [| c s [n IH]]; [now exists 0 |].
  cbn [rstrip_dash]. destruct (rstrip_dash s) as [| k kept] eqn:E.
  - destruct (c =? "-")%char eqn:Ec.
    + apply Ascii.eqb_eq in Ec. subst c. exists (S n). simpl in *.
      now rewrite IH at 1.
    + exists n. simpl in *. now rewrite IH at 1.
  - exists n. cbn [append]. now rewrite IH at 1.
Qed.

(** X21: the fixture name does not depend on how many dashes end the
    prefix: the stripped prefix is the prefix without its trailing dashes,
    it never ends with a dash, and exactly one dash is put before the
    name. *)
Theorem fixture_name_ignores_trailing_dashes (prefix name : string) :
  (forall n, ConfJSON_name (prefix ++ dashes n) name
             = ConfJSON_name prefix name)
  /\ ends_with "-" (rstrip_dash prefix) = false
  /\ (exists n, prefix = (rstrip_dash prefix ++ dashes n)%string)
  /\ ConfJSON_name prefix name
     = (rstrip_dash prefix ++ String "-" name)%string.
Proof.
  split; [| split; [| split]].
  - intros n. unfold ConfJSON_name. now rewrite rstrip_dash_app_dashes.
  - apply rstrip_dash_no_trailing_dash.
  - apply rstrip_dash_splits.
  - reflexivity.
Qed.

Lemma concat_two (sep x y : string) (rest : list string) :
  String.concat sep (x :: y :: rest)
  = (x ++ sep ++ String.concat sep (y :: rest))%string.
Proof. reflexivity. Qed.

Lemma split_first_joins (s : string) :
  String.concat " " (fst (split_first s) :: snd (split_first s)) = s.
Proof.
  induction s as [| c s IH]; [reflexivity |].
  cbn [split_first]. destruct (split_first s) as [piece pieces].
  cbn [fst snd] in *.
  destruct (c =? " ")%char eqn:Ec; cbn [fst snd].
  - apply Ascii.eqb_eq in Ec. subst c.
    rewrite concat_two, IH. reflexivity.
  - destruct pieces as [| p ps].
    + cbn [String.concat] in *. now rewrite IH.
    + rewrite concat_two in *. rewrite <- IH. reflexivity.
Qed.

Lemma split_first_no_space (s : string) :
  str_in " " (fst (split_first s)) = false
  /\ forall piece, In piece (snd (split_first s)) ->
                   str_in " " piece = false.
Proof.
  induction s as [| c s [IH1 IH2]]; [split; [reflexivity | intros ? []] |].
  cbn [split_first]. destruct (split_first s) as [piece pieces].
  cbn [fst snd] in *.
  destruct (c =? " ")%char eqn:Ec; cbn [fst snd].
  - split; [reflexivity |]. intros p [<- | Hp]; auto.
  - split; [| exact IH2].
    cbn [str_in prefix]. rewrite IH1, orb_false_r.
    destruct (ascii_dec " " c) as [<- | Hne]; [| reflexivity].
    discriminate.
Qed.

(** X22: when [cli] returns, the command was not empty, the process ended
    with return code 0, and the argument vector it was started with gives
    the command back when joined with single spaces; no argument holds a
    space, so two spaces in a row pass an empty argument.  An empty command
    raises, and a non-zero return code raises [CalledProcessError]. *)
Theorem cli_splits_on_single_spaces
    (subprocess_run : list string -> Z) (command : string) :
  (forall completed,
     cli subprocess_run command = inr completed ->
     command <> EmptyString
     /\ returncode completed = 0%Z
     /\ String.concat " " (args completed) = command
     /\ (forall arg, In arg (args completed) -> str_in " " arg = false)
     /\ args completed <> [])
  /\ (command = EmptyString ->
      cli subprocess_run command = inl (Exception "cli cannot be empty."))
  /\ (command <> EmptyString ->
      subprocess_run (split_space command) <> 0%Z ->
      cli subprocess_run command
      = inl (CalledProcessError (subprocess_run (split_space command))
                                (split_space command))).
Proof.
  split; [| split].
  - intros completed. unfold cli.
    destruct command as [| c s]; [discriminate |]. cbn [truthy].
    cbv zeta. cbn [returncode args].
    destruct (subprocess_run (split_space (String c s)) =? 0)%Z eqn:Erc;
      [| discriminate].
    intros [= <-]. cbn [returncode args].
    split; [discriminate |]. split; [now apply Z.eqb_eq |].
    unfold split_space.
    pose proof (split_first_joins (String c s)) as Hjoin.
    pose proof (split_first_no_space (String c s)) as [Hfirst Hrest].
    destruct (split_first (String c s)) as [piece pieces].
    cbn [fst snd] in *. split; [exact Hjoin |].
    split; [| discriminate].
    intros arg [<- | Harg]; auto.
  - intros ->. reflexivity.
  - intros Hne Hrc. unfold cli.
    destruct command as [| c s]; [congruence |]. cbn [truthy].
    cbv zeta. cbn [returncode args].
    apply Z.eqb_neq in Hrc. now rewrite Hrc.
Qed.

(** X23: [connect_to_server] never asks for certificate verification: the
    client it returns was configured with [verify_ssl] false when
    [insecure] is set and with none otherwise; it raises exactly when the
    server's version reads "0". *)
Theorem connect_to_server_never_verifies
    {client : Type} (configure : option bool -> client)
    (get_demisto_version : client -> string) (insecure : bool) :
  let verify := if insecure then Some false else None in
  verify <> Some true
  /\ (get_demisto_version (configure verify) <> "0" ->
      connect_to_server configure get_demisto_version insecure
      = inr (configure verify))
  /\ (get_demisto_version (configure verify) = "0" ->
      exists msg,
        connect_to_server configure get_demisto_version insecure
        = inl (Exception msg)).
Proof.
  intros verify. subst verify. unfold connect_to_server.
  destruct insecure; cbn [negb]; cbv zeta.
  - split; [discriminate |]. split.
    + intros H. apply String.eqb_neq in H. now rewrite H.
    + intros H. rewrite H. cbn. eexists. reflexivity.
  - split; [discriminate |]. split.
    + intros H. apply String.eqb_neq in H. now rewrite H.
    + intros H. rewrite H. cbn. eexists. reflexivity.
Qed.

(** * Properties of the REST client *)

Section RestApiProperties.

Variable urljoin : string -> string -> string.
Variable dumps : json -> string.
Variable server : request -> response.

(** X24: without the [DEMISTO_API_KEY] environment variable every method of
    the client raises [RuntimeError] before anything is printed or sent. *)
Theorem no_api_key_no_request
    (self : Client) (yml_file file_id investigation_id query : string)
    (search_filter : json) :
  let missing :=
    RuntimeError "Error: Environment variable DEMISTO_API_KEY not found" in
  upload_integration urljoin dumps server self None yml_file
  = (inl missing, [])
  /\ search_investigations urljoin dumps server self None search_filter
     = (inl missing, [])
  /\ run_query urljoin dumps server self None investigation_id query
     = (inl missing, [])
  /\ download_file urljoin server self None file_id = (inl missing, []).
Proof. repeat split. Qed.

(** What one call sent and how it ended. *)
Ltac one_request :=
  cbv beta iota zeta
      delta [upload_integration search_investigations run_query
             download_file get_api_key];
  match goal with
  | |- context [status_ok (server ?r)] =>
      let E := fresh "Estatus" in
      destruct (status_ok (server r)) eqn:E
  end;
  cbn [fst snd sent app length];
  try (destruct (log_verbose _));
  cbn [fst snd sent app length In headers verify header String.eqb
       Ascii.eqb Bool.eqb].

(** X25: with the variable set, also to the empty string, each method sends
    exactly one request; that request carries the variable's value as its
    [Authorization] header and the client's [verify_cert] as [verify].  The
    method returns when the response passes [raise_for_status] and raises
    [HTTPError] otherwise; [search_investigations] and [run_query] return
    the response's JSON body. *)
Theorem one_authorized_request_per_call
    (self : Client) (api_key : string)
    (yml_file file_id investigation_id query : string)
    (search_filter : json) :
  let checked (A : Type) (call : api A) :=
    exists req,
      sent (snd call) = [req]
      /\ header "Authorization" (headers req) = Some api_key
      /\ verify req = verify_cert self
      /\ (status_ok (server req) = false -> fst call = inl HTTPError)
      /\ (status_ok (server req) = true -> exists a, fst call = inr a) in
  checked unit
    (upload_integration urljoin dumps server self (Some api_key) yml_file)
  /\ checked json
       (search_investigations urljoin dumps server self (Some api_key)
          search_filter)
  /\ checked json
       (run_query urljoin dumps server self (Some api_key)
          investigation_id query)
  /\ checked response
       (download_file urljoin server self (Some api_key) file_id)
  /\ (forall req,
        sent (snd (search_investigations urljoin dumps server self
                     (Some api_key) search_filter)) = [req] ->
        status_ok (server req) = true ->
        fst (search_investigations urljoin dumps server self
               (Some api_key) search_filter) = inr (body (server req)))
  /\ (forall req,
        sent (snd (run_query urljoin dumps server self (Some api_key)
                     investigation_id query)) = [req] ->
        status_ok (server req) = true ->
        fst (run_query urljoin dumps server self (Some api_key)
               investigation_id query) = inr (body (server req))).
Proof.
  cbv zeta. repeat apply conj.
  - one_request; eexists; (split; [reflexivity |]);
      repeat split; intros; try congruence; eexists; reflexivity.
  - one_request; eexists; (split; [reflexivity |]);
      repeat split; intros; try congruence; eexists; reflexivity.
  - one_request; eexists; (split; [reflexivity |]);
      repeat split; intros; try congruence; eexists; reflexivity.
  - one_request; eexists; (split; [reflexivity |]);
      repeat split; intros; try congruence; eexists; reflexivity.
  - intros req. one_request; intros [= <-] H; congruence.
  - intros req. one_request; intros [= <-] H; congruence.
Qed.

End RestApiProperties.

(** X20: once [copy_tests_from_old_file] has run on a file that declares
    tests or whose old version does, [update_tests] leaves the data as it
    finds them: nothing is collected, logged or asked. *)
Theorem copied_tests_stop_update_tests
    (d : yml_data) (old : option yml_data) (answer : option bool)
    (attrs : attributes) (file_id : string) (commands : list command)
    (scripts : list string) (dir : option (list test_playbook))
    (file : option json) (user : string -> bool) :
  truthy_tests d = true
  \/ (exists o, old = Some o /\ truthy_tests o = true) ->
  run (update_tests
         {| data := copy_tests_from_old_file d old; assume_answer := answer |}
         attrs file_id commands scripts dir)
      file user
  = (Ok (copy_tests_from_old_file d old),
     {| conf_file := file; answers := user; trace := [] |}).
Proof.
  intros H.
  assert (Ht : truthy_tests (copy_tests_from_old_file d old) = true).
  { destruct H as [H | [o [-> H]]].
    - destruct d as [[[| t ts] |] keys0]; try discriminate.
      destruct old as [[[[| t' ts'] |] [| key' keys']] |]; reflexivity.
    - destruct o as [[[| t' ts'] |] keys']; try discriminate.
      destruct d as [[[| t ts] |] keys0]; reflexivity. }
  unfold update_tests, run. cbn [data].
  unfold truthy_tests in Ht.
  destruct (data_get_tests (copy_tests_from_old_file d old));
    [discriminate | reflexivity].
Qed.

(** * The further properties at concrete inputs *)


Lemma update_conf_json_only_appends_witness :
  exists conf' added w,
    run (update_conf_json "conf.json" slack_id
           (formatter ["TPB1"; "TPB2"] (Some true)) "integration")
        (Some full_registry) (always true) = (Ok tt, w)
    /\ conf_file w = Some conf'
    /\ getitem conf' "tests" = Ok (JList ([slack_entry] ++ added))
    /\ forall k, k <> "tests" ->
                 dict_get conf' k = dict_get full_registry k.
Proof.
  apply (update_conf_json_only_appends "conf.json" slack_id
           (formatter ["TPB1"; "TPB2"] (Some true)) "integration"
           full_registry [slack_entry] (always true)).
  reflexivity.
Defined.

Lemma confirmed_update_of_other_kind_adds_nothing_witness :
  exists w',
    update_conf_json_apply (formatter ["TPB2"] (Some true)) "layout"
      slack_registry "Slack" ["TPB2"] initial_world = (Ok tt, w')
    /\ conf_file w' = Some slack_registry
    /\ writes (trace w') = writes (trace initial_world) ++ [slack_registry]
    /\ In (Logged INFO "Added test playbooks to conf.json successfully")
          (trace w').
Proof.
  apply (confirmed_update_of_other_kind_adds_nothing
           (formatter ["TPB2"] (Some true)) "layout" slack_registry
           [slack_entry] "Slack" ["TPB2"] initial_world);
    try discriminate; reflexivity.
Defined.

Lemma nothing_unregistered_means_no_write_witness :
  run (update_conf_json "conf.json" slack_id (formatter ["TPB1"] None)
         "integration")
      (Some slack_registry) (always true)
  = (Ok tt,
     {| conf_file := Some slack_registry; answers := always true;
        trace := [Loaded slack_registry;
                  Logged DEBUG "No unconfigured test playbooks"] |}).
Proof.
  apply (nothing_unregistered_means_no_write "conf.json" slack_id
           (formatter ["TPB1"] None) "integration" (Some slack_registry)
           (always true) slack_registry "Slack").
  reflexivity.
Defined.

Lemma remove_from_conf_json_frames_witness :
  exists conf',
    conf_file (snd (run (remove_from_conf_json "conf.json"
                           (formatter ["TPB1"] None) "integration" "Slack")
                        (Some full_registry) (always true)))
    = Some conf'
    /\ getitem conf' "tests" = Ok (JList [])
    /\ dict_get conf' "skipped_tests"
       = dict_get full_registry "skipped_tests".
Proof.
  pose proof (remove_from_conf_json_frames "conf.json"
                (formatter ["TPB1"] None) "integration" "Slack"
                full_registry (JList [slack_entry]) (always true) eq_refl)
    as H.
  cbv zeta in H.
  destruct (run (remove_from_conf_json "conf.json" (formatter ["TPB1"] None)
                   "integration" "Slack")
                (Some full_registry) (always true)) as [r w].
  change (search_and_delete_from_conf (JList [slack_entry]) "Slack"
            "integration" (data_get_tests (data (formatter ["TPB1"] None)))
            (remove_no_test_playbooks_explicitly
               (data_get_tests (data (formatter ["TPB1"] None)))))
    with (@Ok json (JList [])) in H.
  cbv beta iota in H.
  destruct H as [_ [conf' [d [d' [Hfile [_ [Htests [Hframe _]]]]]]]].
  exists conf'. cbn [snd]. split; [exact Hfile |]. split; [exact Htests |].
  apply Hframe. discriminate.
Defined.

Lemma foreign_commands_never_match_witness :
  commands_loop "Slack"
    [ {| command_id := Some "get-issue"; command_source := None |} ]
    [jira_command] = false.
Proof.
  apply foreign_commands_never_match; [discriminate |].
  intros c [<- | []]. split; discriminate.
Defined.


Lemma update_deprecate_of_other_types_witness :
  exists d',
    update_deprecate "integration" "playbook" "script"
      "No tests (deprecated)" plain_script_yml (Some "script") EmptyString
    = (Ok tt, d')
    /\ assoc_get "deprecated" (other_keys d') = Some (JBool true)
    /\ assoc_get "comment" (other_keys d')
       = Some (JStr "Deprecated. No available replacement.")
    /\ data_get_tests d' = ["No tests (deprecated)"].
Proof.
  destruct (update_deprecate_of_other_types "integration" "playbook"
              "script" "No tests (deprecated)" plain_script_yml
              (Some "script") EmptyString eq_refl)
    as [d' [Hrun [Hdep [Hnote [Htests _]]]]].
  exists d'. repeat split; assumption.
Defined.

Lemma update_deprecate_is_idempotent_witness :
  let once :=
    snd (update_deprecate "integration" "playbook" "script"
           "No tests (deprecated)" slack_yml (Some "integration")
           "SlackV3") in
  update_deprecate "integration" "playbook" "script" "No tests (deprecated)"
    once (Some "integration") "SlackV3" = (Ok tt, once)
  /\ assoc_get "display" (other_keys once)
     = Some (JStr "Slack (Deprecated)").
Proof.
  split; [| reflexivity].
  apply (update_deprecate_is_idempotent "integration" "playbook" "script"
           "No tests (deprecated)" slack_yml).
  reflexivity.
Defined.

Lemma deprecated_file_is_not_registered_witness :
  let d' :=
    snd (update_deprecate "integration" "playbook" "script"
           "No tests (deprecated)" slack_yml (Some "integration")
           "SlackV3") in
  data_get_tests d' = ["No tests (deprecated)"]
  /\ remove_no_test_playbooks_explicitly (data_get_tests d') = true
  /\ forall answer file_type' file user,
       run (update_conf_json "conf.json" slack_id
              {| data := d'; assume_answer := answer |} file_type')
           file user
       = (Ok tt, {| conf_file := file; answers := user; trace := [] |}).
Proof.
  apply (deprecated_file_is_not_registered "integration" "playbook" "script"
           "No tests (deprecated)" "conf.json" slack_id slack_yml
           (snd (update_deprecate "integration" "playbook" "script"
                   "No tests (deprecated)" slack_yml (Some "integration")
                   "SlackV3"))
           (Some "integration") "SlackV3");
    reflexivity.
Defined.

Lemma copied_tests_stop_update_tests_witness :
  run (update_tests
         {| data := copy_tests_from_old_file plain_script_yml
                      (Some slack_yml);
            assume_answer := None |}
         slack_attributes "Hello" [] [] None)
      None (always true)
  = (Ok {| tests_key := Some ["TPB1"];
           other_keys := [ ("name", JStr "Hello") ] |},
     {| conf_file := None; answers := always true; trace := [] |}).
Proof.
  apply (copied_tests_stop_update_tests plain_script_yml (Some slack_yml)
           None slack_attributes "Hello" [] [] None None (always true)).
  right. exists slack_yml. split; reflexivity.
Defined.
